(** * A model of the data pipeline handler (src/index.py)

    The handler keeps two datasets in an object store (a labour-statistics
    time series and a population series) and, on a queue trigger, computes
    three derived views from them.  The development follows the source:

    - [Frames]    the pandas values the analysis works on, and the cleaning
                  step [bls_df.apply(lambda x: ...)];
    - [Analysis]  [population_stats], [best_years], [combined_report];
    - [Pipeline]  the world the handler runs in (object store, queue, origin
                  servers, standard output), the two sync operations, the
                  analysis loader and [lambda_handler].

    Numbers: years, values and populations are integers ([Z]); the value
    column is an int64 column, whose sums wrap around.  The mean and the
    standard deviation are real numbers, [None] standing for NaN; the
    rounding of floating-point arithmetic is outside the model. *)

From Stdlib Require Import ZArith List String Ascii Strings.Byte Bool Lia.
From Stdlib Require Import Reals Lra.
From Stdlib Require Import Permutation Sorted.
From Stdlib Require OrderedTypeEx.
From stdpp Require Import base option list sorting gmap strings.
Import ListNotations.

Set Warnings "-register-all".

Local Open Scope string_scope.
Local Open Scope list_scope.
Local Open Scope Z_scope.

(** ** Exceptions *)

(** The exceptions the source distinguishes: botocore's [ClientError] with
    its [e.response['Error']['Code']], Python's [KeyError] and
    [AttributeError], and any other exception with its message. *)
Inductive exn : Type :=
| ClientError (code : string) (text : string)
| KeyError (key : string)
| AttributeError (text : string)
| OtherError (text : string).

(** A computation that returns or raises. *)
Definition result (A : Type) : Type := exn + A.

Definition ok {A} (a : A) : result A := inr a.
Definition throw {A} (e : exn) : result A := inl e.

Definition rbind {A B} (r : result A) (k : A -> result B) : result B :=
  match r with
  | inl e => inl e
  | inr a => k a
  end.

(** [returns r P]: the computation returns, and its value satisfies [P]. *)
Definition returns {A} (r : result A) (P : A -> Prop) : Prop :=
  match r with
  | inl _ => False
  | inr a => P a
  end.

(** [e.response['Error']['Code']] of a [ClientError] *)
Definition error_code (e : exn) : string :=
  match e with
  | ClientError code _ => code
  | _ => ""
  end.

(** [str(e)] *)
Definition str_exn (e : exn) : string :=
  match e with
  | ClientError _ text => text
  | KeyError key => "'" ++ key ++ "'"
  | AttributeError text => text
  | OtherError text => text
  end.

Module Frames.

(** ** Strings: [str.strip()] *)

(** ASCII white space as [str.isspace] has it: tab, line feed, vertical tab,
    form feed, carriage return, the four separators 0x1c-0x1f and space. *)
Definition is_space (c : ascii) : bool :=
  let n := nat_of_ascii c in
  ((9 <=? n)%nat && (n <=? 13)%nat) || ((28 <=? n)%nat && (n <=? 32)%nat).

Fixpoint lstrip_chars (l : list ascii) : list ascii :=
  match l with
  | [] => []
  | c :: l' => if is_space c then lstrip_chars l' else l
  end.

Definition rstrip_chars (l : list ascii) : list ascii :=
  rev (lstrip_chars (rev l)).

Definition strip (s : string) : string :=
  string_of_list_ascii (rstrip_chars (lstrip_chars (list_ascii_of_string s))).

(** A string has no leading and no trailing white space. *)
Definition stripped (s : string) : Prop := strip s = s.

(** ** Records and columns *)

(** One row of the time-series table. *)
Record BlsRow : Type := mkBls {
  series_id : string;
  year : Z;
  period : string;
  value : Z
}.

(** One row of the population table. *)
Record PopRow : Type := mkPop {
  pop_year : Z;
  population : Z
}.

(** A pandas Series: a column of strings (dtype object) or of integers. *)
Inductive Series : Type :=
| ObjectSeries (cells : list string)
| Int64Series (cells : list Z).

(** The time-series frame is a list of rows; pandas keeps it as columns, and
    [DataFrame.apply] works on that view. *)
Definition DataFrame : Type := list BlsRow.

Definition columns (df : DataFrame) : list (string * Series) :=
  [ ("series_id", ObjectSeries (map series_id df));
    ("year", Int64Series (map year df));
    ("period", ObjectSeries (map period df));
    ("value", Int64Series (map value df)) ].

Fixpoint zip_rows (ids : list string) (years : list Z) (periods : list string)
    (values : list Z) : list BlsRow :=
  match ids, years, periods, values with
  | i :: ids', y :: years', p :: periods', v :: values' =>
      mkBls i y p v :: zip_rows ids' years' periods' values'
  | _, _, _, _ => []
  end.

(** The frame pandas builds from the four result columns of [apply]. *)
Definition of_columns (cols : list (string * Series)) : result DataFrame :=
  match cols with
  | [ (_, ObjectSeries ids); (_, Int64Series years);
      (_, ObjectSeries periods); (_, Int64Series values) ] =>
      ok (zip_rows ids years periods values)
  | _ => throw (OtherError "unexpected result of apply")
  end.

(** ** The cleaning step *)

(** What the lambda of the cleaning step can be applied to: a Python string
    or a column. *)
Inductive pyarg : Type :=
| ArgStr (s : string)
| ArgSeries (s : Series).

(** [isinstance(x, str)] *)
Definition isinstance_str (x : pyarg) : bool :=
  match x with
  | ArgStr _ => true
  | ArgSeries _ => false
  end.

(** [x.str.strip()]: a column of strings has the [.str] accessor, whose
    [strip] strips every cell; a Python string and a numeric column have no
    such attribute. *)
Definition str_strip (x : pyarg) : result pyarg :=
  match x with
  | ArgSeries (ObjectSeries cells) => ok (ArgSeries (ObjectSeries (map strip cells)))
  | ArgSeries (Int64Series _) =>
      throw (AttributeError "Can only use .str accessor with string values!")
  | ArgStr _ => throw (AttributeError "'str' object has no attribute 'str'")
  end.

(** [lambda x: x.str.strip() if isinstance(x, str) else x] *)
Definition clean_lambda (x : pyarg) : result pyarg :=
  if isinstance_str x then str_strip x else ok x.

(** [df.apply(f)]: [f] is called once per column, with the column, and the
    columns it answers make the new frame.  (Were [f] to answer a scalar,
    [apply] would answer a Series, which the rest of [analyze_data] cannot
    group.) *)
Fixpoint apply_columns (f : pyarg -> result pyarg) (cols : list (string * Series))
    : result (list (string * Series)) :=
  match cols with
  | [] => ok []
  | (name, s) :: rest =>
      rbind (f (ArgSeries s)) (fun y =>
      rbind (apply_columns f rest) (fun rest' =>
      match y with
      | ArgSeries s' => ok ((name, s') :: rest')
      | ArgStr _ => throw (OtherError "apply answered a Series, not a DataFrame")
      end))
  end.

Definition apply (f : pyarg -> result pyarg) (df : DataFrame) : result DataFrame :=
  rbind (apply_columns f (columns df)) of_columns.

(** [bls_df = bls_df.apply(lambda x: x.str.strip() if isinstance(x, str) else x)] *)
Definition clean (df : DataFrame) : result DataFrame := apply clean_lambda df.

(** Every textual field of every row is stripped. *)
Definition all_stripped (df : DataFrame) : Prop :=
  Forall (fun r => stripped (series_id r) /\ stripped (period r)) df.

End Frames.

Module Analysis.
Import Frames.

(** ** Analysis 1: population statistics *)

(** [(pop_df['year'] >= 2013) & (pop_df['year'] <= 2018)] *)
Definition in_window (p : PopRow) : bool :=
  (2013 <=? pop_year p) && (pop_year p <=? 2018).

Definition sumR (xs : list R) : R := fold_right Rplus 0%R xs.

(** [Series.mean()]: the sum over the count; NaN on an empty column. *)
Definition series_mean (xs : list Z) : option R :=
  match xs with
  | [] => None
  | _ :: _ => Some (sumR (map IZR xs) / INR (length xs))%R
  end.

(** [Series.std()], with pandas' default [ddof=1]: NaN when the count does
    not exceed [ddof], else the root of the squared deviations from the
    average over [count - ddof]. *)
Definition series_std (xs : list Z) : option R :=
  if (length xs <=? 1)%nat then None
  else
    let avg := (sumR (map IZR xs) / INR (length xs))%R in
    Some (sqrt (sumR (map (fun x => Rsqr (avg - IZR x)) xs)
                / (INR (length xs) - 1)))%R.

(** The dictionary [{'mean': ..., 'std': ...}]; [None] is NaN. *)
Record Stats : Type := mkStats {
  mean : option R;
  std : option R
}.

(** The populations of the rows in the window. *)
Definition window_values (pop_df : list PopRow) : list Z :=
  map population (List.filter in_window pop_df).

(** [pop_df[...]['population'].agg(['mean', 'std']).to_dict()].  A frame
    built from an empty list has no column, and [pop_df['year']] raises. *)
Definition population_stats (pop_df : list PopRow) : result Stats :=
  match pop_df with
  | [] => throw (KeyError "year")
  | _ :: _ =>
      ok {| mean := series_mean (window_values pop_df);
            std := series_std (window_values pop_df) |}
  end.

(** ** Analysis 2: best year per series *)

(** A row of the frame [groupby(['series_id', 'year'])['value'].sum().reset_index()]. *)
Record GroupRow : Type := mkGroup {
  g_series : string;
  g_year : Z;
  g_value : Z
}.

(** The order pandas lists group keys in: by series, then by year. *)
Definition key_le (a b : string * Z) : Prop :=
  match String.compare (fst a) (fst b) with
  | Lt => True
  | Eq => snd a <= snd b
  | Gt => False
  end.

#[global] Instance key_le_dec : RelDecision key_le.
Proof.
  intros a b. unfold key_le.
  destruct (String.compare (fst a) (fst b)); [apply _ | left; exact I | right; tauto].
Defined.

Definition string_le (a b : string) : Prop := String.leb a b = true.

#[global] Instance string_le_dec : RelDecision string_le.
Proof. intros a b. unfold string_le. apply _. Defined.

Definition row_key (r : BlsRow) : string * Z := (series_id r, year r).

(** The distinct [(series_id, year)] pairs of the frame, sorted. *)
Definition group_keys (df : DataFrame) : list (string * Z) :=
  merge_sort key_le (remove_dups (map row_key df)).

Definition in_group (k : string * Z) (r : BlsRow) : bool :=
  String.eqb (series_id r) (fst k) && (year r =? snd k).

(** The value column is an integer column (dtype int64): its arithmetic is
    that of signed 64-bit integers, which wraps around. *)
Definition wrap64 (z : Z) : Z := (z + 2 ^ 63) mod 2 ^ 64 - 2 ^ 63.


(** [.sum()] of the rows of a group: the values are added in the order of
    the rows, in 64-bit arithmetic. *)
Definition sum_values (rows : list BlsRow) : Z :=
  fold_left (fun acc v => wrap64 (acc + v)) (map value rows) 0.

(** [bls_df.groupby(['series_id', 'year'])['value'].sum().reset_index()] *)
Definition groupby_sum (df : DataFrame) : list GroupRow :=
  map (fun k => mkGroup (fst k) (snd k) (sum_values (List.filter (in_group k) df)))
      (group_keys df).

(** The value of the grouped frame for a series and a year. *)
Definition year_total (df : DataFrame) (s : string) (y : Z) : Z :=
  sum_values (List.filter (in_group (s, y)) df).

(** [sort_values('value', ascending=False)].  pandas sorts with NumPy's
    default kind, which is not stable: the order of rows with equal values
    depends on the NumPy build and on the length of the column.  The sort is
    therefore a parameter of the analysis, and [DescendingSort] says what
    every build guarantees. *)
Class Sorter : Type := sort_values : list GroupRow -> list GroupRow.

Definition value_ge (a b : GroupRow) : Prop := g_value b <= g_value a.

Definition DescendingSort (S : Sorter) : Prop :=
  forall l, Permutation (sort_values l) l /\ StronglySorted value_ge (sort_values l).

(** One such sort: insertion, rows with equal values keeping their order
    (what a stable kind gives). *)
Fixpoint insert_desc (x : GroupRow) (l : list GroupRow) : list GroupRow :=
  match l with
  | [] => [x]
  | y :: l' => if g_value y <=? g_value x then x :: l else y :: insert_desc x l'
  end.

Definition insertion_sort : Sorter := fold_right insert_desc [].

(** An entry of [best_years]: [{'year': ..., 'value': ...}]. *)
Record BestYear : Type := mkBest {
  by_year : Z;
  by_value : Z
}.

Definition series_keys (l : list GroupRow) : list string :=
  merge_sort string_le (remove_dups (map g_series l)).

Definition first_of_series (s : string) (l : list GroupRow) : option GroupRow :=
  List.find (fun g => String.eqb (g_series g) s) l.

(** [groupby('series_id').first().to_dict('index')]: for every series, in
    the order of the series identifiers, the first row of the series. *)
Definition groupby_first (l : list GroupRow) : list (string * BestYear) :=
  omap (fun s => g ← first_of_series s l; Some (s, mkBest (g_year g) (g_value g)))
       (series_keys l).

Definition best_years `{Sorter} (df : DataFrame) : list (string * BestYear) :=
  groupby_first (sort_values (groupby_sum df)).

(** ** Analysis 3: combined report *)

(** [(bls_df['series_id'] == 'PRS30006032') & (bls_df['period'] == 'Q01')] *)
Definition report_mask (r : BlsRow) : bool :=
  String.eqb (series_id r) "PRS30006032" && String.eqb (period r) "Q01".

(** A record of the merged frame: the columns of the time-series row and
    the population column, NaN ([None]) without a population row. *)
Record ReportRow : Type := mkReport {
  rr_series_id : string;
  rr_year : Z;
  rr_period : string;
  rr_value : Z;
  rr_population : option Z
}.

Definition joined (r : BlsRow) (p : option Z) : ReportRow :=
  mkReport (series_id r) (year r) (period r) (value r) p.

(** The time-series row a record of the merged frame comes from. *)
Definition source_row (rr : ReportRow) : BlsRow :=
  mkBls (rr_series_id rr) (rr_year rr) (rr_period rr) (rr_value rr).

Definition same_year (r : BlsRow) (p : PopRow) : bool := pop_year p =? year r.

(** The records of the merged frame for one row of the left frame: one per
    row of [right] with its year, or one with NaN. *)
Definition join_row (right : list PopRow) (r : BlsRow) : list ReportRow :=
  match List.filter (same_year r) right with
  | [] => [joined r None]
  | ms => map (fun p => joined r (Some (population p))) ms
  end.

(** [left.merge(right, on='year', how='left')]: the rows of [left] in their
    order, each joined with the rows of [right]. *)
Definition merge_left (left : list BlsRow) (right : list PopRow) : list ReportRow :=
  flat_map (join_row right) left.

Definition combined_report (df : DataFrame) (pop_df : list PopRow) : list ReportRow :=
  merge_left (List.filter report_mask df) pop_df.

(** ** The result of [analyze_data] *)

Record AnalysisResult : Type := mkResult {
  r_population_stats : Stats;
  r_best_years : list (string * BestYear);
  r_combined_report : list ReportRow
}.

(** Lines 114-150 of [analyze_data], on the two frames it has loaded. *)
Definition analyze_frames `{Sorter} (bls_df : DataFrame) (pop_df : list PopRow)
    : result AnalysisResult :=
  rbind (clean bls_df) (fun bls_df =>
  rbind (population_stats pop_df) (fun pop_stats =>
  ok {| r_population_stats := pop_stats;
        r_best_years := best_years bls_df;
        r_combined_report := combined_report bls_df pop_df |})).

End Analysis.

(** ** The words of the specification *)

(** What the specification says of the views, written apart from the code:
    the theorems compare the analysis with these. *)
Module Spec.
Import Frames.


(** "filter population records to years in the closed range [2013, 2018]":
    the populations of those records, in their order. *)
Fixpoint window_populations (pop_df : list PopRow) : list Z :=
  match pop_df with
  | [] => []
  | p :: pop_df' =>
      if decide (2013 <= pop_year p <= 2018)
      then population p :: window_populations pop_df'
      else window_populations pop_df'
  end.

(** The sum of a list of real numbers. *)
Fixpoint total (xs : list R) : R :=
  match xs with
  | [] => 0%R
  | x :: xs' => (x + total xs')%R
  end.

End Spec.

Module Pipeline.
Import Frames Analysis.

(** ** Python values *)

(** The values that [json.dumps] and [json.loads] exchange; a dictionary
    keeps its keys in insertion order, [PyFloat None] is NaN. *)
Inductive pyobj : Type :=
| PyNone
| PyBool (b : bool)
| PyInt (n : Z)
| PyFloat (x : option R)
| PyStr (s : string)
| PyList (items : list pyobj)
| PyDict (items : list (string * pyobj)).

(** The library functions the handler calls on data: [json.dumps] (with
    its [indent]), [json.loads], [pd.read_csv] on the bytes of the stored
    time series, and [pd.DataFrame] on the decoded population payload. *)
Class Externals : Type := mkExternals {
  json_dumps : option nat -> pyobj -> string;
  json_loads : list byte -> result pyobj;
  read_csv : list byte -> result DataFrame;
  pd_DataFrame : pyobj -> result (list PopRow)
}.

(** ** The world *)

(** A call to a service outside the process. *)
Inductive Call : Type :=
| HttpGet (url : string)
| S3Get (bucket key : string)
| S3Put (bucket key : string) (body : list byte)
| SqsSend (queue_url body : string).

(** The process environment, the exception [boto3.client] raises for a
    service in this process if it raises one (for instance [NoRegionError]
    without a configured region), the origin servers, the object store, the
    faults the store and the queue answer with (for instance
    [ClientError "AccessDenied"]), the clock, and what the handler has done
    so far: the calls it made, the messages the queue accepted and the
    lines it printed, oldest first. *)
Record World : Type := mkWorld {
  environ : gmap string string;
  client_fault : string -> option exn;
  origin : string -> result (list byte);
  s3_objects : gmap (string * string) (list byte);
  s3_get_fault : option exn;
  s3_put_fault : option exn;
  sqs_fault : option exn;
  clock : string;
  calls : list Call;
  sqs_messages : list (string * string);
  stdout : list string
}.

Definition add_call (c : Call) (w : World) : World :=
  mkWorld (environ w) (client_fault w) (origin w) (s3_objects w) (s3_get_fault w) (s3_put_fault w)
          (sqs_fault w) (clock w) (calls w ++ [c]) (sqs_messages w) (stdout w).

Definition add_line (s : string) (w : World) : World :=
  mkWorld (environ w) (client_fault w) (origin w) (s3_objects w) (s3_get_fault w) (s3_put_fault w)
          (sqs_fault w) (clock w) (calls w) (sqs_messages w) (stdout w ++ [s]).

Definition store_object (bucket key : string) (body : list byte) (w : World) : World :=
  mkWorld (environ w) (client_fault w) (origin w) (<[(bucket, key) := body]> (s3_objects w))
          (s3_get_fault w) (s3_put_fault w) (sqs_fault w) (clock w) (calls w)
          (sqs_messages w) (stdout w).

Definition enqueue (queue_url body : string) (w : World) : World :=
  mkWorld (environ w) (client_fault w) (origin w) (s3_objects w) (s3_get_fault w) (s3_put_fault w)
          (sqs_fault w) (clock w) (calls w) (sqs_messages w ++ [(queue_url, body)])
          (stdout w).

(** ** Computations: state and exceptions *)

Definition M (A : Type) : Type := World -> result A * World.

Definition ret {A} (a : A) : M A := fun w => (inr a, w).
Definition raise {A} (e : exn) : M A := fun w => (inl e, w).

Definition bind {A B} (m : M A) (k : A -> M B) : M B :=
  fun w =>
    match m w with
    | (inl e, w') => (inl e, w')
    | (inr a, w') => k a w'
    end.

Notation "x <- m ;; k" := (bind m (fun x => k))
  (at level 100, m at next level, right associativity).
Notation "m ;;; k" := (bind m (fun _ => k))
  (at level 100, right associativity).

(** [try: m  except Exception as e: h e] *)
Definition try_except {A} (m : M A) (h : exn -> M A) : M A :=
  fun w =>
    match m w with
    | (inl e, w') => h e w'
    | (inr a, w') => (inr a, w')
    end.

(** [try: m  except ClientError as e: h e]; other exceptions pass. *)
Definition try_except_ClientError {A} (m : M A) (h : exn -> M A) : M A :=
  try_except m (fun e =>
    match e with
    | ClientError _ _ => h e
    | _ => raise e
    end).

Definition lift {A} (r : result A) : M A := fun w => (r, w).

(** ** Services *)

Definition print (s : string) : M unit := fun w => (inr tt, add_line s w).

(** [os.environ[name]] *)
Definition os_environ (name : string) : M string :=
  fun w =>
    match environ w !! name with
    | Some v => (inr v, w)
    | None => (inl (KeyError name), w)
    end.

(** [requests.get(url).content] *)
Definition requests_get (url : string) : M (list byte) :=
  fun w => (origin w url, add_call (HttpGet url) w).

(** [datetime.now().isoformat()] *)
Definition now_isoformat : M string := fun w => (inr (clock w), w).

Definition no_such_key : exn :=
  ClientError "NoSuchKey"
    "An error occurred (NoSuchKey) when calling the GetObject operation: The specified key does not exist.".

(** [s3.get_object(Bucket=bucket, Key=key)['Body'].read()] *)
Definition s3_get_object (bucket key : string) : M (list byte) :=
  fun w =>
    let w' := add_call (S3Get bucket key) w in
    match s3_get_fault w with
    | Some e => (inl e, w')
    | None =>
        match s3_objects w !! (bucket, key) with
        | Some body => (inr body, w')
        | None => (inl no_such_key, w')
        end
    end.

(** [s3.put_object(Bucket=bucket, Key=key, Body=body)] *)
Definition s3_put_object (bucket key : string) (body : list byte) : M unit :=
  fun w =>
    let w' := add_call (S3Put bucket key body) w in
    match s3_put_fault w with
    | Some e => (inl e, w')
    | None => (inr tt, store_object bucket key body w')
    end.

(** [sqs.send_message(QueueUrl=queue_url, MessageBody=body)] *)
Definition sqs_send_message (queue_url body : string) : M unit :=
  fun w =>
    let w' := add_call (SqsSend queue_url body) w in
    match sqs_fault w with
    | Some e => (inl e, w')
    | None => (inr tt, enqueue queue_url body w')
    end.

(** ** The handler object *)

Record DataPipelineHandler : Type := mkHandler {
  bucket_name : string;
  queue_url : string;
  population_api_url : string
}.

(** [boto3.client(service)]: the client is the store or the queue of the
    world; building it may raise. *)
Definition boto3_client (service : string) : M unit :=
  fun w =>
    match client_fault w service with
    | Some e => (inl e, w)
    | None => (inr tt, w)
    end.

(** [DataPipelineHandler.__init__]: the two clients are built, then the
    configuration is read from the environment. *)
Definition init : M DataPipelineHandler :=
  boto3_client "s3";;;
  boto3_client "sqs";;;
  bucket <- os_environ "BUCKET_NAME";;
  queue <- os_environ "QUEUE_URL";;
  url <- os_environ "POPULATION_API_URL";;
  ret (mkHandler bucket queue url).

Definition bls_url : string := "https://download.bls.gov/pub/time.series/pr/".

(** [f"{bls_url}pr.data.0.Current"] *)
Definition bls_origin : string := bls_url ++ "pr.data.0.Current".

Definition bls_key : string := "bls/pr.data.0.Current".
Definition population_key : string := "population/us_population.json".

#[global] Instance byte_eq_decision : EqDecision byte := Byte.byte_eq_dec.

(** [a == b] on [bytes] *)
Definition bytes_eqb (a b : list byte) : bool := bool_decide (a = b).

(** ** Sync *)

(** [sync_bls_data]: the inner [try] block answers [true] when it has
    returned from the function (the stored copy is the fetched one). *)
Definition sync_bls_data (self : DataPipelineHandler) : M unit :=
  try_except
    (current_data <- requests_get bls_origin;;
     returned <-
       try_except_ClientError
         (existing <- s3_get_object (bucket_name self) bls_key;;
          if bytes_eqb existing current_data
          then (print "BLS data is already up to date";;; ret true)
          else ret false)
         (fun e =>
            if negb (String.eqb (error_code e) "NoSuchKey") then raise e
            else ret false);;
     if returned : bool then ret tt
     else
       (s3_put_object (bucket_name self) bls_key current_data;;;
        print "Successfully updated BLS data"))
    (fun e => print ("Error syncing BLS data: " ++ str_exn e);;; raise e).

(** The body of the notification. *)
Definition population_update (timestamp : string) : pyobj :=
  PyDict [("type", PyStr "population_update"); ("timestamp", PyStr timestamp)].

(** The body of the stored population blob: [json.dumps(data)], encoded. *)
Definition population_payload `{Externals} (data : pyobj) : list byte :=
  list_byte_of_string (json_dumps None data).

(** The body of the message: the dictionary serialised, with the time of the
    clock. *)
Definition population_message `{Externals} (w : World) : string :=
  json_dumps None (population_update (clock w)).

(** [fetch_population_data] *)
Definition fetch_population_data `{Externals} (self : DataPipelineHandler) : M unit :=
  try_except
    (content <- requests_get (population_api_url self);;
     data <- lift (json_loads content);;
     s3_put_object (bucket_name self) population_key
       (list_byte_of_string (json_dumps None data));;;
     timestamp <- now_isoformat;;
     sqs_send_message (queue_url self) (json_dumps None (population_update timestamp));;;
     print "Successfully updated population data")
    (fun e => print ("Error fetching population data: " ++ str_exn e);;; raise e).

(** ** Analysis *)

(** [analyze_data] *)
Definition analyze_data `{Externals} `{Sorter} (self : DataPipelineHandler)
    : M AnalysisResult :=
  try_except
    (bls_body <- s3_get_object (bucket_name self) bls_key;;
     bls_df <- lift (read_csv bls_body);;
     pop_body <- s3_get_object (bucket_name self) population_key;;
     pop_data <- lift (json_loads pop_body);;
     pop_df <- lift (pd_DataFrame pop_data);;
     lift (analyze_frames bls_df pop_df))
    (fun e => print ("Error analyzing data: " ++ str_exn e);;; raise e).

(** The dictionaries of the result, as [to_dict] builds them. *)
Definition stats_to_dict (s : Stats) : pyobj :=
  PyDict [("mean", PyFloat (mean s)); ("std", PyFloat (std s))].

Definition best_years_to_dict (l : list (string * BestYear)) : pyobj :=
  PyDict (map (fun e =>
    (fst e, PyDict [("year", PyInt (by_year (snd e)));
                    ("value", PyInt (by_value (snd e)))])) l).

(** The population column of the merged frame stays an integer column when
    every row found its population, and is a float column otherwise. *)
Definition report_to_records (l : list ReportRow) : pyobj :=
  let complete := forallb (fun r => bool_decide (is_Some (rr_population r))) l in
  PyList (map (fun r =>
    PyDict [("series_id", PyStr (rr_series_id r));
            ("year", PyInt (rr_year r));
            ("period", PyStr (rr_period r));
            ("value", PyInt (rr_value r));
            ("population",
             match rr_population r with
             | Some p => if complete then PyInt p else PyFloat (Some (IZR p))
             | None => PyFloat None
             end)]) l).

Definition result_to_dict (r : AnalysisResult) : pyobj :=
  PyDict [("population_stats", stats_to_dict (r_population_stats r));
          ("best_years", best_years_to_dict (r_best_years r));
          ("combined_report", report_to_records (r_combined_report r))].

(** ** The entry point *)

Record Response : Type := mkResponse {
  statusCode : Z;
  body : string
}.

(** The branch of an SQS trigger. *)
Definition analysis_branch `{Externals} `{Sorter} (handler : DataPipelineHandler)
    : M Response :=
  results <- analyze_data handler;;
  print ("Analysis results: " ++ json_dumps (Some 2%nat) (result_to_dict results));;;
  ret (mkResponse 200 (json_dumps None (result_to_dict results))).

(** The branch of a scheduled event. *)
Definition sync_branch `{Externals} (handler : DataPipelineHandler) : M Response :=
  sync_bls_data handler;;;
  fetch_population_data handler;;;
  ret (mkResponse 200
         (json_dumps None (PyDict [("message", PyStr "Sync completed successfully")]))).

(** The [except Exception] clause of the entry point. *)
Definition error_response `{Externals} (e : exn) : M Response :=
  print ("Error in lambda_handler: " ++ str_exn e);;;
  ret (mkResponse 500 (json_dumps None (PyDict [("error", PyStr (str_exn e))]))).

(** [lambda_handler]: the handler object is built before the [try]. *)
Definition lambda_handler `{Externals} `{Sorter}
    (event context : gmap string pyobj) : M Response :=
  handler <- init;;
  try_except
    (match event !! "Records" with
     | Some _ => analysis_branch handler
     | None => sync_branch handler
     end)
    error_response.

(** The trigger carries a nonempty batch of queued-message records. *)
Definition nonempty_batch (event : gmap string pyobj) : bool :=
  match event !! "Records" with
  | Some (PyList (_ :: _)) => true
  | _ => false
  end.

(** ** Worlds along a run *)

(** The calls of [w'] are those of [w] and then [l]. *)
Definition calls_then (w w' : World) (l : list Call) : Prop :=
  calls w' = calls w ++ l.

(** The world after the two first calls of [sync_bls_data]: the fetch and
    the read of the stored copy. *)
Definition after_read (self : DataPipelineHandler) (w : World) : World :=
  add_call (S3Get (bucket_name self) bls_key) (add_call (HttpGet bls_origin) w).

(** The world after [sync_bls_data] has written [data]. *)
Definition after_write (self : DataPipelineHandler) (data : list byte) (w : World)
    : World :=
  store_object (bucket_name self) bls_key data
    (add_call (S3Put (bucket_name self) bls_key data) (after_read self w)).

(** The world after [fetch_population_data] has called [put_object] with
    [payload], and after it has then called [send_message] with [message]. *)
Definition after_population_put (self : DataPipelineHandler) (payload : list byte)
    (w : World) : World :=
  add_call (S3Put (bucket_name self) population_key payload)
    (add_call (HttpGet (population_api_url self)) w).

Definition after_population_send (self : DataPipelineHandler) (payload : list byte)
    (message : string) (w : World) : World :=
  add_call (SqsSend (queue_url self) message)
    (store_object (bucket_name self) population_key payload
       (after_population_put self payload w)).

(** ** Counting writes *)

Definition is_put (c : Call) : bool :=
  match c with
  | S3Put _ _ _ => true
  | _ => false
  end.

(** The number of [put_object] calls made so far. *)
Definition writes (w : World) : nat := length (List.filter is_put (calls w)).

(** ** A test double *)

(** Library functions for running the handler on concrete worlds: the
    serialiser writes the keys of a dictionary, the parsers answer with
    fixed data. *)
Definition mock_dumps (o : pyobj) : string :=
  match o with
  | PyDict items => "{" ++ String.concat "," (map fst items) ++ "}"
  | _ => "<json>"
  end.

Definition mock_externals : Externals :=
  {| json_dumps := fun _ => mock_dumps;
     json_loads := fun _ => ok (PyList []);
     read_csv := fun _ => ok [];
     pd_DataFrame := fun _ => ok [mkPop 2015 200] |}.

End Pipeline.

(** Worlds for the end-to-end scenarios. *)
Module Worlds.
Import Frames Analysis Pipeline.

(** The bytes [A,B\n1,2\n]. *)
Definition payload1 : list byte := [x41; x2c; x42; x0a; x31; x2c; x32; x0a].

(** The bytes [X]. *)
Definition payloadX : list byte := [x58].

Definition configuration : gmap string string :=
  <["AWS_DEFAULT_REGION" := "us-east-1"]>
  (<["BUCKET_NAME" := "bucket"]>
  (<["QUEUE_URL" := "queue"]>
  (<["POPULATION_API_URL" := "https://population.example/data"]> ∅))).

Definition the_handler : DataPipelineHandler :=
  mkHandler "bucket" "queue" "https://population.example/data".

(** A configured process; every origin answers [payload], the store holds
    [objects], no service is at fault and nothing has happened yet. *)
Definition world_with (payload : list byte)
    (objects : gmap (string * string) (list byte)) : World :=
  {| environ := configuration;
     client_fault := fun _ => None;
     origin := fun _ => inr payload;
     s3_objects := objects;
     s3_get_fault := None;
     s3_put_fault := None;
     sqs_fault := None;
     clock := "2024-05-01T12:00:00";
     calls := [];
     sqs_messages := [];
     stdout := [] |}.

(** Scenario 1: no blob is stored, the origin answers [payload1]. *)
Definition scenario1 : World := world_with payload1 ∅.

(** Scenario 2: the store holds [X], the origin answers [X]. *)
Definition scenario2 : World :=
  world_with payloadX (<[("bucket", bls_key) := payloadX]> ∅).

(** The store refuses to read: access denied. *)
Definition access_denied : exn :=
  ClientError "AccessDenied"
    "An error occurred (AccessDenied) when calling the GetObject operation: Access Denied".

Definition world_denied : World :=
  {| environ := configuration;
     client_fault := fun _ => None;
     origin := fun _ => inr payload1;
     s3_objects := ∅;
     s3_get_fault := Some access_denied;
     s3_put_fault := None;
     sqs_fault := None;
     clock := "2024-05-01T12:00:00";
     calls := [];
     sqs_messages := [];
     stdout := [] |}.

Definition write_denied : exn :=
  ClientError "AccessDenied"
    "An error occurred (AccessDenied) when calling the PutObject operation: Access Denied".

(** The store refuses to write. *)
Definition world_readonly : World :=
  {| environ := configuration;
     client_fault := fun _ => None;
     origin := fun _ => inr payload1;
     s3_objects := ∅;
     s3_get_fault := None;
     s3_put_fault := Some write_denied;
     sqs_fault := None;
     clock := "2024-05-01T12:00:00";
     calls := [];
     sqs_messages := [];
     stdout := [] |}.

(** A process with a region, where boto3 builds its clients, but without
    the configuration of the handler. *)
Definition world_unconfigured : World :=
  {| environ := <["AWS_DEFAULT_REGION" := "us-east-1"]> ∅;
     client_fault := fun _ => None;
     origin := fun _ => inr payload1;
     s3_objects := ∅;
     s3_get_fault := None;
     s3_put_fault := None;
     sqs_fault := None;
     clock := "2024-05-01T12:00:00";
     calls := [];
     sqs_messages := [];
     stdout := [] |}.

(** A trigger with an empty batch of records, and a scheduled trigger. *)
Definition empty_batch : gmap string pyobj := {[ "Records" := PyList [] ]}.

Definition scheduled : gmap string pyobj := {[ "source" := PyStr "aws.events" ]}.

End Worlds.

(** ** Concrete inputs *)

Module Scenarios.
Import Frames Analysis.

(** A row as the time-series file has it, the identifier padded. *)
Definition padded_frame : DataFrame :=
  [mkBls "PRS30006032   " 2015 "Q01" 7].

(** Two quarters of one series. *)
Definition scenario3 : DataFrame :=
  [mkBls "S1" 2020 "Q01" 5; mkBls "S1" 2021 "Q01" 10].

(** One population row before the window, one inside. *)
Definition scenario4 : list PopRow :=
  [mkPop 2012 100; mkPop 2015 200].


(** Three population rows in the window, out of order, and two outside. *)
Definition scenario5 : list PopRow :=
  [mkPop 2012 50; mkPop 2013 100; mkPop 2015 300; mkPop 2014 200; mkPop 2019 1000].

End Scenarios.

(** ** The configuration and further inputs *)

Module Configuration.
Import Frames Analysis Pipeline Worlds.

(** The variables the constructor reads, in the order it reads them. *)
Definition configuration_names : list string :=
  ["BUCKET_NAME"; "QUEUE_URL"; "POPULATION_API_URL"].

(** The first of them that the environment does not have. *)
Definition first_missing (env : gmap string string) : option string :=
  List.find (fun name => bool_decide (env !! name = None)) configuration_names.

(** A process that has its region and its bucket name only. *)
Definition world_bucket_only : World :=
  {| environ := <["AWS_DEFAULT_REGION" := "us-east-1"]> (<["BUCKET_NAME" := "bucket"]> ∅);
     client_fault := fun _ => None;
     origin := fun _ => inr payload1;
     s3_objects := ∅;
     s3_get_fault := None;
     s3_put_fault := None;
     sqs_fault := None;
     clock := "2024-05-01T12:00:00";
     calls := [];
     sqs_messages := [];
     stdout := [] |}.

(** A process without a region: boto3 builds no client. *)
Definition no_region : exn := OtherError "You must specify a region.".

Definition world_no_region : World :=
  {| environ := ∅;
     client_fault := fun _ => Some no_region;
     origin := fun _ => inr payload1;
     s3_objects := ∅;
     s3_get_fault := None;
     s3_put_fault := None;
     sqs_fault := None;
     clock := "2024-05-01T12:00:00";
     calls := [];
     sqs_messages := [];
     stdout := [] |}.

(** A process whose origins do not answer. *)
Definition connection_error : exn :=
  OtherError "HTTPSConnectionPool(host='download.bls.gov', port=443): Max retries exceeded".

Definition world_offline : World :=
  {| environ := configuration;
     client_fault := fun _ => None;
     origin := fun _ => inl connection_error;
     s3_objects := <[("bucket", bls_key) := payloadX]> ∅;
     s3_get_fault := None;
     s3_put_fault := None;
     sqs_fault := None;
     clock := "2024-05-01T12:00:00";
     calls := [];
     sqs_messages := [];
     stdout := [] |}.

(** Both blobs are stored. *)
Definition world_loaded : World :=
  world_with payload1
    (<[("bucket", bls_key) := payload1]>
     (<[("bucket", population_key) := payloadX]> ∅)).

(** A trigger with one queued message. *)
Definition one_record : gmap string pyobj :=
  {[ "Records" := PyList [PyDict [("body", PyStr "{type,timestamp}")]] ]}.


End Configuration.

(** * Properties *)

Module FramesFacts.
Import Frames.

Lemma zip_rows_columns (df : DataFrame) :
  zip_rows (map series_id df) (map year df) (map period df) (map value df) = df.
Proof.
  induction df as [|[i y p v] df IH]; simpl; [reflexivity|].
  now rewrite IH.
Qed.

(** The lambda gives every column back as it is: a column is not a [str]. *)
Lemma clean_lambda_series (s : Series) : clean_lambda (ArgSeries s) = ok (ArgSeries s).
Proof. reflexivity. Qed.

Lemma apply_columns_clean (cols : list (string * Series)) :
  apply_columns clean_lambda cols = ok cols.
Proof.
  induction cols as [|[name s] cols IH]; simpl; [reflexivity|].
  now rewrite IH.
Qed.

(** The cleaning step returns the frame it was given. *)
Lemma clean_identity (df : DataFrame) : clean df = ok df.
Proof.
  unfold clean, apply. rewrite apply_columns_clean. simpl.
  now rewrite zip_rows_columns.
Qed.

End FramesFacts.

Module AnalysisFacts.
Import Frames Analysis FramesFacts.


Lemma elem_of_group_keys (df : DataFrame) (k : string * Z) :
  k ∈ group_keys df <-> exists r, r ∈ df /\ row_key r = k.
Proof.
  unfold group_keys. rewrite merge_sort_Permutation, elem_of_remove_dups.
  rewrite list_elem_of_In, in_map_iff.
  split; intros [r [H1 H2]]; exists r; split; auto; now apply list_elem_of_In.
Qed.

Lemma NoDup_group_keys (df : DataFrame) : NoDup (group_keys df).
Proof.
  unfold group_keys. rewrite merge_sort_Permutation. apply NoDup_remove_dups.
Qed.

(** The rows of the grouped frame: one per pair present in the data, with
    the total of the pair. *)
Lemma elem_of_groupby_sum (df : DataFrame) (g : GroupRow) :
  g ∈ groupby_sum df <->
  (exists r, r ∈ df /\ series_id r = g_series g /\ year r = g_year g) /\
  g_value g = year_total df (g_series g) (g_year g).
Proof.
  unfold groupby_sum. rewrite list_elem_of_In, in_map_iff. split.
  - intros [[s y] [<- Hk]]. simpl.
    apply list_elem_of_In, elem_of_group_keys in Hk as [r [Hr Hkey]].
    injection Hkey as Hs Hy. split; [exists r; auto | reflexivity].
  - intros [[r [Hr [Hs Hy]]] Hv]. exists (g_series g, g_year g). split.
    + destruct g as [s y v]. simpl in *. now rewrite Hv.
    + apply list_elem_of_In, elem_of_group_keys. exists r. split; [exact Hr|].
      unfold row_key. now rewrite Hs, Hy.
Qed.

Lemma first_of_series_Some (s : string) (l : list GroupRow) (g : GroupRow) :
  first_of_series s l = Some g -> g ∈ l /\ g_series g = s.
Proof.
  unfold first_of_series. intros H. apply find_some in H as [H1 H2].
  split; [now apply list_elem_of_In | now apply String.eqb_eq].
Qed.

Lemma first_of_series_is_Some (s : string) (l : list GroupRow) (g : GroupRow) :
  g ∈ l -> g_series g = s -> is_Some (first_of_series s l).
Proof.
  unfold first_of_series. intros Hg Hs.
  destruct (List.find _ l) eqn:E; [eauto|].
  apply list_elem_of_In in Hg.
  pose proof (find_none _ _ E g Hg) as Hn. simpl in Hn.
  apply String.eqb_neq in Hn. contradiction.
Qed.

(** In a frame sorted by descending value, the first row of a series has the
    greatest value of the series. *)
Lemma first_of_series_max (s : string) (l : list GroupRow) (g : GroupRow) :
  StronglySorted value_ge l -> first_of_series s l = Some g ->
  forall g', g' ∈ l -> g_series g' = s -> g_value g' <= g_value g.
Proof.
  unfold first_of_series.
  induction 1 as [|x l Hs IH Hx]; simpl; [discriminate|].
  intros Hfind g' Hin Hser.
  destruct (String.eqb (g_series x) s) eqn:E.
  - injection Hfind as <-.
    apply elem_of_cons in Hin as [->|Hin]; [lia|].
    rewrite Forall_forall in Hx. exact (Hx g' Hin).
  - apply elem_of_cons in Hin as [->|Hin].
    + apply String.eqb_neq in E. contradiction.
    + now apply IH.
Qed.

Lemma elem_of_series_keys (s : string) (l : list GroupRow) :
  s ∈ series_keys l <-> exists g, g ∈ l /\ g_series g = s.
Proof.
  unfold series_keys. rewrite merge_sort_Permutation, elem_of_remove_dups.
  rewrite list_elem_of_In, in_map_iff.
  split; intros [g [H1 H2]]; exists g; split; auto; now apply list_elem_of_In.
Qed.

Lemma elem_of_groupby_first (l : list GroupRow) (s : string) (b : BestYear) :
  (s, b) ∈ groupby_first l <->
  exists g, first_of_series s l = Some g /\ b = mkBest (g_year g) (g_value g).
Proof.
  unfold groupby_first. rewrite list_elem_of_omap. split.
  - intros [s' [_ H]]. destruct (first_of_series s' l) as [g|] eqn:E; simpl in H; [|discriminate].
    injection H as <- <-. eauto.
  - intros [g [Hg ->]]. exists s. split.
    + apply elem_of_series_keys. exists g. now apply first_of_series_Some.
    + now rewrite Hg.
Qed.



Section BestYears.
Context (S : Sorter) (HS : DescendingSort S).

Lemma elem_of_sort_values (l : list GroupRow) (g : GroupRow) :
  g ∈ sort_values l <-> g ∈ l.
Proof. destruct (HS l) as [Hp _]. now rewrite Hp. Qed.

Lemma elem_of_best_years (df : DataFrame) (s : string) (b : BestYear) :
  (s, b) ∈ best_years df ->
  (exists r, r ∈ df /\ series_id r = s /\ year r = by_year b) /\
  by_value b = year_total df s (by_year b) /\
  (forall r, r ∈ df -> series_id r = s -> year_total df s (year r) <= by_value b).
Proof.
  unfold best_years. intros H.
  apply elem_of_groupby_first in H as [g [Hfirst ->]]. simpl.
  pose proof (first_of_series_Some _ _ _ Hfirst) as [Hin Hser].
  apply elem_of_sort_values, elem_of_groupby_sum in Hin as [[r [Hr [Hrs Hry]]] Hv].
  subst s. split; [eauto|]. split; [exact Hv|].
  intros r' Hr' Hs'.
  destruct (HS (groupby_sum df)) as [_ Hsorted].
  apply (first_of_series_max _ _ _ Hsorted Hfirst
           (mkGroup (g_series g) (year r') (year_total df (g_series g) (year r'))));
    [|reflexivity].
  apply elem_of_sort_values, elem_of_groupby_sum. simpl.
  split; [exists r'; auto | reflexivity].
Qed.

Lemma best_years_series (df : DataFrame) (s : string) :
  s ∈ map fst (best_years df) <-> s ∈ map series_id df.
Proof.
  rewrite !list_elem_of_In, !in_map_iff. split.
  - intros [[s' b] [<- H]]. simpl.
    apply list_elem_of_In, elem_of_best_years in H as [[r [Hr [Hs _]]] _].
    exists r. split; [exact Hs | now apply list_elem_of_In].
  - intros [r [<- Hr]]. apply list_elem_of_In in Hr.
    pose (g := mkGroup (series_id r) (year r) (year_total df (series_id r) (year r))).
    assert (Hg : g ∈ sort_values (groupby_sum df)).
    { apply elem_of_sort_values, elem_of_groupby_sum. simpl.
      split; [exists r; auto | reflexivity]. }
    destruct (first_of_series_is_Some (series_id r) _ g Hg eq_refl) as [g' Hg'].
    exists (series_id r, mkBest (g_year g') (g_value g')). split; [reflexivity|].
    apply list_elem_of_In. unfold best_years. apply elem_of_groupby_first. eauto.
Qed.
End BestYears.


Lemma insert_desc_Permutation (x : GroupRow) (l : list GroupRow) :
  Permutation (insert_desc x l) (x :: l).
Proof.
  induction l as [|y l IH]; simpl; [reflexivity|].
  destruct (g_value y <=? g_value x); [reflexivity|].
  rewrite IH. apply perm_swap.
Qed.

Lemma insert_desc_sorted (x : GroupRow) (l : list GroupRow) :
  StronglySorted value_ge l -> StronglySorted value_ge (insert_desc x l).
Proof.
  induction 1 as [|y l Hs IH Hy]; simpl.
  - repeat constructor.
  - destruct (g_value y <=? g_value x) eqn:E.
    + apply Z.leb_le in E. constructor; [now constructor|].
      constructor; [exact E|].
      eapply Forall_impl; [exact Hy|]. unfold value_ge. intros; simpl in *; lia.
    + apply Z.leb_gt in E. constructor; [exact IH|].
      rewrite (insert_desc_Permutation x l).
      constructor; [unfold value_ge; lia | exact Hy].
Qed.

(** Insertion is one of the sorts the analysis may run with. *)
Lemma insertion_sort_descending : DescendingSort insertion_sort.
Proof.
  intros l. unfold sort_values, insertion_sort.
  induction l as [|x l [IHp IHs]]; simpl.
  - split; [reflexivity | constructor].
  - split; [now rewrite insert_desc_Permutation, IHp | now apply insert_desc_sorted].
Qed.


Lemma wrap64_add_l (a b : Z) : wrap64 (wrap64 a + b) = wrap64 (a + b).
Proof.
  unfold wrap64. f_equal.
  replace ((a + 2 ^ 63) mod 2 ^ 64 - 2 ^ 63 + b + 2 ^ 63)
    with ((a + 2 ^ 63) mod 2 ^ 64 + b) by lia.
  rewrite Zplus_mod_idemp_l. f_equal. lia.
Qed.

Lemma fold_wrap64 (vs : list Z) (a : Z) :
  fold_left (fun acc v => wrap64 (acc + v)) vs (wrap64 a)
  = wrap64 (a + fold_right Z.add 0 vs).
Proof.
  revert a. induction vs as [|v vs IH]; intros a; simpl.
  - f_equal. lia.
  - rewrite wrap64_add_l, IH. f_equal. lia.
Qed.

(** The sum of a group is the sum of its values, reduced to 64 bits. *)
Lemma sum_values_wrap (rows : list BlsRow) :
  sum_values rows = wrap64 (fold_right Z.add 0 (map value rows)).
Proof.
  unfold sum_values. change 0 with (wrap64 0) at 1. now rewrite fold_wrap64.
Qed.



(** Without an empty population frame the analysis returns, and its three
    parts are the three views of the frames. *)
Lemma analyze_frames_ok `{Sorter} (df : DataFrame) (pop_df : list PopRow) :
  pop_df <> [] ->
  analyze_frames df pop_df =
    ok (mkResult (mkStats (series_mean (window_values pop_df))
                          (series_std (window_values pop_df)))
                 (best_years df) (combined_report df pop_df)).
Proof.
  intros Hne. unfold analyze_frames. rewrite clean_identity.
  destruct pop_df as [|p pop_df]; [contradiction|]. reflexivity.
Qed.

End AnalysisFacts.

Module AnalysisClaims.
Import Frames Analysis FramesFacts AnalysisFacts Scenarios.

(** C1 (the code departs from it).  The claim: after the cleaning step no
    textual field of a time-series row has leading or trailing white space.
    The code: the lambda tests [isinstance(x, str)] on a column, which is
    never a [str], so the cleaning step returns every frame unchanged; on
    the padded row the identifier keeps its padding, and the report, which
    compares it with the bare identifier, is empty. *)
Theorem clean_keeps_whitespace :
  (forall df, clean df = ok df) /\
  clean padded_frame = ok padded_frame /\
  ~ all_stripped padded_frame /\
  strip "PRS30006032   " = "PRS30006032" /\
  (forall pop_df, returns (analyze_frames (H := insertion_sort) padded_frame (mkPop 2015 200 :: pop_df))
     (fun res => r_combined_report res = [])).
Proof.
  split; [exact clean_identity|].
  split; [reflexivity|].
  split.
  { intros H. inversion H as [|r l [Hs _] _]; subst. discriminate Hs. }
  split; [reflexivity|].
  intros pop_df. unfold analyze_frames. rewrite clean_identity. reflexivity.
Qed.




End AnalysisClaims.

Module ReportFacts.
Import Frames Analysis FramesFacts AnalysisFacts.

Lemma report_mask_true (r : BlsRow) :
  report_mask r = true <-> series_id r = "PRS30006032" /\ period r = "Q01".
Proof. unfold report_mask. now rewrite andb_true_iff, !String.eqb_eq. Qed.

Lemma same_year_true (r : BlsRow) (p : PopRow) :
  same_year r p = true <-> pop_year p = year r.
Proof. unfold same_year. apply Z.eqb_eq. Qed.

Lemma filter_nil_iff {A} (f : A -> bool) (l : list A) :
  List.filter f l = [] <-> forall x, x ∈ l -> f x = false.
Proof.
  induction l as [|a l IH]; simpl.
  - split; [intros _ x Hx; inversion Hx | reflexivity].
  - destruct (f a) eqn:E.
    + split; [discriminate|]. intros H. specialize (H a (list_elem_of_here _ _)). congruence.
    + rewrite IH. split.
      * intros H x Hx. apply elem_of_cons in Hx as [->|Hx]; auto.
      * intros H x Hx. apply H. now right.
Qed.

(** The rows a time-series row contributes to the merged frame. *)
Lemma elem_of_merge_left (left : list BlsRow) (right : list PopRow) (rr : ReportRow) :
  rr ∈ merge_left left right <->
  exists r, r ∈ left /\
    ((exists p, p ∈ right /\ pop_year p = year r /\ rr = joined r (Some (population p))) \/
     ((forall p, p ∈ right -> pop_year p <> year r) /\ rr = joined r None)).
Proof.
  unfold merge_left. rewrite list_elem_of_In, in_flat_map. split.
  - intros [r [Hr Hrr]]. exists r. split; [now apply list_elem_of_In|].
    unfold join_row in Hrr.
    destruct (List.filter (same_year r) right) as [|m ms] eqn:E.
    + right. destruct Hrr as [<-|[]]. split; [|reflexivity].
      intros p Hp Hy. rewrite filter_nil_iff in E. specialize (E p Hp).
      apply same_year_true in Hy. congruence.
    + left. apply in_map_iff in Hrr as [p [<- Hp]].
      rewrite <- E in Hp. apply filter_In in Hp as [Hp Hy].
      exists p. split; [now apply list_elem_of_In|].
      split; [now apply same_year_true | reflexivity].
  - intros [r [Hr H]]. exists r. split; [now apply list_elem_of_In|].
    unfold join_row.
    destruct H as [[p [Hp [Hy ->]]]|[Hnone ->]].
    + assert (Hin : In p (List.filter (same_year r) right)).
      { apply filter_In. split; [now apply list_elem_of_In | now apply same_year_true]. }
      destruct (List.filter (same_year r) right) as [|m ms]; [inversion Hin|].
      apply in_map_iff. exists p. auto.
    + assert (E : List.filter (same_year r) right = []).
      { apply filter_nil_iff. intros p Hp.
        destruct (same_year r p) eqn:Ey; [|reflexivity].
        apply same_year_true in Ey. now apply Hnone in Hp. }
      rewrite E. now left.
Qed.

Lemma source_row_joined (r : BlsRow) (p : option Z) : source_row (joined r p) = r.
Proof. now destruct r. Qed.

(** With one population row per year at most, the merged frame has the
    rows of the left frame, once each and in their order. *)
Lemma merge_left_rows (left : list BlsRow) (right : list PopRow) :
  NoDup (map pop_year right) ->
  map source_row (merge_left left right) = left.
Proof.
  intros Hnd. unfold merge_left.
  induction left as [|r left IH]; simpl; [reflexivity|].
  rewrite map_app, IH. clear IH. unfold join_row.
  assert (Hlen : (length (List.filter (same_year r) right) <= 1)%nat).
  { clear -Hnd. induction right as [|q right IH]; simpl; [lia|].
    simpl in Hnd. apply NoDup_cons in Hnd as [Hq Hnd].
    destruct (same_year r q) eqn:E; [|auto].
    assert (Hnil : List.filter (same_year r) right = []).
    { apply filter_nil_iff. intros p Hp.
      destruct (same_year r p) eqn:Ep; [|reflexivity].
      exfalso. apply Hq. apply same_year_true in E, Ep.
      rewrite E, <- Ep. apply list_elem_of_In, in_map. now apply list_elem_of_In. }
    rewrite Hnil. simpl. lia. }
  destruct (List.filter (same_year r) right) as [|m [|m' ms]]; simpl in *;
    [| |lia]; now rewrite source_row_joined.
Qed.

End ReportFacts.

Module StatsFacts.
Import Frames Analysis FramesFacts AnalysisFacts.

Lemma in_window_true (p : PopRow) :
  in_window p = true <-> 2013 <= pop_year p <= 2018.
Proof. unfold in_window. rewrite andb_true_iff, !Z.leb_le. tauto. Qed.

Lemma elem_of_window (pop_df : list PopRow) (p : PopRow) :
  p ∈ List.filter in_window pop_df <-> p ∈ pop_df /\ 2013 <= pop_year p <= 2018.
Proof. now rewrite !list_elem_of_In, filter_In, in_window_true. Qed.

Lemma sumR_squares_nonneg {A} (f : A -> R) (xs : list A) :
  (0 <= sumR (map (fun x => Rsqr (f x)) xs))%R.
Proof.
  induction xs as [|x xs IH]; simpl; [apply Rle_refl|].
  pose proof (Rle_0_sqr (f x)). lra.
Qed.

Lemma INR_length_pos {A} (xs : list A) : xs <> [] -> (0 < INR (length xs))%R.
Proof.
  intros Hne. destruct xs as [|x xs]; [contradiction|].
  apply lt_0_INR. simpl. lia.
Qed.

(** The mean of a nonempty column times its length is its sum. *)
Lemma series_mean_spec (xs : list Z) :
  xs <> [] ->
  exists m, series_mean xs = Some m /\
            (m * INR (length xs) = sumR (map IZR xs))%R.
Proof.
  intros Hne. pose proof (INR_length_pos xs Hne) as Hpos.
  destruct xs as [|x xs]; [contradiction|].
  eexists. split; [reflexivity|]. field. lra.
Qed.

(** The standard deviation of a column of two cells or more is the
    nonnegative number whose square, times the length less one, is the sum
    of the squared deviations from the mean. *)
Lemma series_std_spec (xs : list Z) :
  (2 <= length xs)%nat ->
  exists m s, series_mean xs = Some m /\ series_std xs = Some s /\
    (0 <= s)%R /\
    (s * s * (INR (length xs) - 1) = sumR (map (fun x => Rsqr (IZR x - m)) xs))%R.
Proof.
  intros Hlen.
  assert (Hn : (2 <= INR (length xs))%R).
  { change 2%R with (INR 2). now apply le_INR. }
  unfold series_std, series_mean.
  destruct xs as [|x xs]; [simpl in Hlen; lia|].
  destruct (Nat.leb_spec (length (x :: xs)) 1) as [Hle|_]; [lia|].
  set (n := INR (length (x :: xs))) in *.
  set (m := (sumR (map IZR (x :: xs)) / n)%R).
  exists m. eexists. split; [reflexivity|]. split; [reflexivity|].
  assert (Heq : map (fun x0 => Rsqr (IZR x0 - m)) (x :: xs) =
                map (fun x0 => Rsqr (m - IZR x0)) (x :: xs)).
  { apply map_ext. intros a. apply Rsqr_neg_minus. }
  rewrite Heq.
  pose proof (sumR_squares_nonneg (fun x0 => (m - IZR x0)%R) (x :: xs)) as Hsq.
  set (q := sumR (map (fun x0 => Rsqr (m - IZR x0)) (x :: xs))) in *.
  assert (Hdiv : (0 <= q / (n - 1))%R).
  { apply Rmult_le_pos; [exact Hsq|]. apply Rlt_le, Rinv_0_lt_compat. lra. }
  split; [apply sqrt_pos|].
  rewrite sqrt_sqrt by exact Hdiv. field. lra.
Qed.

(** A column of one cell: the mean is the cell, the deviation is NaN. *)
Lemma series_single (x : Z) :
  series_mean [x] = Some (IZR x) /\ series_std [x] = None.
Proof.
  split; [|reflexivity]. unfold series_mean. simpl. f_equal. field.
Qed.

(** The window of the code is the window of the specification, and its sum
    is the sum. *)
Lemma window_values_spec (pop_df : list PopRow) :
  window_values pop_df = Spec.window_populations pop_df.
Proof.
  unfold window_values. induction pop_df as [|p pop_df IH]; simpl; [reflexivity|].
  destruct (in_window p) eqn:E.
  - apply in_window_true in E. rewrite decide_True by exact E. simpl. now rewrite IH.
  - rewrite decide_False; [exact IH|].
    intros Hp. apply in_window_true in Hp. congruence.
Qed.

Lemma sumR_total (xs : list R) : sumR xs = Spec.total xs.
Proof. induction xs as [|x xs IH]; simpl; [reflexivity | now rewrite IH]. Qed.

End StatsFacts.

Module ViewClaims.
Import Frames Analysis FramesFacts AnalysisFacts ReportFacts StatsFacts Scenarios.

(** C3.  The analysis of the two frames (the population frame not empty)
    returns a [combined_report] whose every record carries the identifier
    PRS30006032 and the period Q01 and comes from a row of the time-series
    frame, joined with the population of a population row of its year, or
    with no population when no population row has its year; every row of
    the frame with that identifier and that period is in the report, once
    per population row of its year, and once without population when there
    is none.  With at most one population row per year, the records are
    the selected rows, each once and in their order. *)
Theorem combined_report_exact `{Sorter} (df : DataFrame) (pop_df : list PopRow) :
  pop_df <> [] ->
  returns (analyze_frames df pop_df) (fun res =>
    (forall rr, rr ∈ r_combined_report res ->
       rr_series_id rr = "PRS30006032" /\ rr_period rr = "Q01" /\
       source_row rr ∈ df /\
       match rr_population rr with
       | Some n => mkPop (rr_year rr) n ∈ pop_df
       | None => forall p, p ∈ pop_df -> pop_year p <> rr_year rr
       end) /\
    (forall r, r ∈ df -> series_id r = "PRS30006032" -> period r = "Q01" ->
       (forall p, p ∈ pop_df -> pop_year p = year r ->
          joined r (Some (population p)) ∈ r_combined_report res) /\
       ((forall p, p ∈ pop_df -> pop_year p <> year r) ->
          joined r None ∈ r_combined_report res)) /\
    (NoDup (map pop_year pop_df) ->
       map source_row (r_combined_report res) = List.filter report_mask df)).
Proof.
  intros Hne. rewrite (analyze_frames_ok df pop_df Hne). simpl.
  unfold combined_report. split; [|split].
  - intros rr Hrr. apply elem_of_merge_left in Hrr as [r [Hr Hrr]].
    apply list_elem_of_In, filter_In in Hr as [Hr Hmask].
    apply report_mask_true in Hmask as [Hs Hp]. apply list_elem_of_In in Hr.
    destruct Hrr as [[p [Hp' [Hy ->]]]|[Hnone ->]]; simpl;
      rewrite ?source_row_joined; repeat split; auto.
    destruct p as [y n]. simpl in *. now subst y.
  - intros r Hr Hs Hp.
    assert (Hsel : r ∈ List.filter report_mask df).
    { apply list_elem_of_In, filter_In. split; [now apply list_elem_of_In|].
      now apply report_mask_true. }
    split.
    + intros p Hin Hy. apply elem_of_merge_left. exists r. split; [exact Hsel|].
      left. exists p. auto.
    + intros Hnone. apply elem_of_merge_left. exists r. split; [exact Hsel|].
      right. auto.
  - intros Hnd. now apply merge_left_rows.
Qed.

Lemma combined_report_exact_witness :
  returns (analyze_frames (H := insertion_sort)
             [mkBls "PRS30006032" 2015 "Q01" 7; mkBls "PRS30006032" 2015 "Q02" 8;
              mkBls "PRS30006032" 2011 "Q01" 9; mkBls "S1" 2015 "Q01" 1]
             scenario4)
    (fun res => map source_row (r_combined_report res) =
                [mkBls "PRS30006032" 2015 "Q01" 7; mkBls "PRS30006032" 2011 "Q01" 9]).
Proof.
  pose proof (combined_report_exact (H := insertion_sort)
             [mkBls "PRS30006032" 2015 "Q01" 7; mkBls "PRS30006032" 2015 "Q02" 8;
              mkBls "PRS30006032" 2011 "Q01" 9; mkBls "S1" 2015 "Q01" 1]
             scenario4 ltac:(discriminate)) as H0.
  destruct (analyze_frames _ _) as [e|res]; simpl in *; [exact H0|].
  destruct H0 as [_ [_ H0]]. apply H0.
  repeat constructor; rewrite ?elem_of_cons; intros Hc;
    repeat (destruct Hc as [Hc|Hc]; [discriminate Hc|]); inversion Hc.
Defined.

(** C4.  The analysis (the population frame not empty) returns a
    [population_stats] computed from the populations of the rows whose year
    is between 2013 and 2018, bounds included: with one such row or more the
    mean times their number is the sum of their populations; with two or
    more the standard deviation is the nonnegative number whose square
    times their number less one is the sum of the squared deviations from
    the mean; and two population frames with the same populations in that
    range give the same statistics.  On scenario 4 only the row of 2015 is
    in the range and the mean is 200; on scenario 5 the three rows of 2013,
    2015 and 2014 are, the mean is 200 and the standard deviation 100. *)
Theorem population_stats_window `{Sorter} (df : DataFrame) (pop_df : list PopRow) :
  pop_df <> [] ->
  returns (analyze_frames df pop_df) (fun res =>
    let rows := List.filter in_window pop_df in
    let xs := Spec.window_populations pop_df in
    (forall p, p ∈ rows <-> p ∈ pop_df /\ 2013 <= pop_year p <= 2018) /\
    (xs <> [] -> exists m,
       mean (r_population_stats res) = Some m /\
       (m * INR (length xs) = Spec.total (map IZR xs))%R) /\
    ((2 <= length xs)%nat -> exists m s,
       mean (r_population_stats res) = Some m /\
       std (r_population_stats res) = Some s /\
       (0 <= s)%R /\
       (s * s * (INR (length xs) - 1) =
        Spec.total (map (fun x => Rsqr (IZR x - m)) xs))%R) /\
    (forall pop_df', pop_df' <> [] ->
       Spec.window_populations pop_df' = xs ->
       returns (analyze_frames df pop_df') (fun res' =>
         r_population_stats res' = r_population_stats res))) /\
  List.filter in_window scenario4 = [mkPop 2015 200] /\
  returns (analyze_frames df scenario4) (fun res =>
    mean (r_population_stats res) = Some 200%R) /\
  List.filter in_window scenario5 = [mkPop 2013 100; mkPop 2015 300; mkPop 2014 200] /\
  returns (analyze_frames df scenario5) (fun res =>
    mean (r_population_stats res) = Some 200%R /\
    std (r_population_stats res) = Some 100%R).
Proof.
  intros Hne. split; [|split; [reflexivity|split; [|split; [reflexivity|]]]].
  - rewrite (analyze_frames_ok df pop_df Hne). cbn [returns r_population_stats mean std].
    rewrite window_values_spec.
    split; [apply elem_of_window|].
    split.
    { intros Hxs. destruct (series_mean_spec _ Hxs) as [m [Hm Hsum]].
      exists m. split; [exact Hm|]. rewrite <- sumR_total. exact Hsum. }
    split.
    { intros Hlen. destruct (series_std_spec _ Hlen) as [m [s [Hm [Hs [Hpos Hsq]]]]].
      exists m, s. split; [exact Hm|]. split; [exact Hs|]. split; [exact Hpos|].
      rewrite <- sumR_total. exact Hsq. }
    intros pop_df' Hne' Hsame.
    rewrite (analyze_frames_ok df pop_df' Hne'). cbn [returns r_population_stats].
    now rewrite window_values_spec, Hsame.
  - rewrite (analyze_frames_ok df scenario4) by discriminate.
    cbn [returns r_population_stats mean].
    apply (series_single 200).
  - rewrite (analyze_frames_ok df scenario5) by discriminate.
    cbn [returns r_population_stats mean std].
    change (window_values scenario5) with [100; 300; 200].
    split.
    + unfold series_mean. simpl. f_equal. field.
    + unfold series_std. simpl. f_equal.
      apply sqrt_lem_1; [|lra|].
      * apply Rmult_le_pos; [|lra].
        pose proof (Rle_0_sqr ((IZR 100 + (IZR 300 + (IZR 200 + 0))) / (1 + 1 + 1) - IZR 100)).
        pose proof (Rle_0_sqr ((IZR 100 + (IZR 300 + (IZR 200 + 0))) / (1 + 1 + 1) - IZR 300)).
        pose proof (Rle_0_sqr ((IZR 100 + (IZR 300 + (IZR 200 + 0))) / (1 + 1 + 1) - IZR 200)).
        lra.
      * unfold Rsqr. field.
Qed.

Lemma population_stats_window_witness :
  returns (analyze_frames (H := insertion_sort) scenario3 scenario5) (fun res =>
    mean (r_population_stats res) = Some 200%R /\
    std (r_population_stats res) = Some 100%R).
Proof.
  apply (population_stats_window (H := insertion_sort) scenario3 scenario5).
  discriminate.
Defined.

(** C10.  When exactly one population row has its year between 2013 and
    2018, the analysis returns a [population_stats] whose mean is the
    population of that row and whose standard deviation is NaN: pandas
    divides by the number of rows less one. *)
Theorem single_row_std_nan `{Sorter} (df : DataFrame) (pop_df : list PopRow) (p : PopRow) :
  List.filter in_window pop_df = [p] ->
  returns (analyze_frames df pop_df) (fun res =>
    mean (r_population_stats res) = Some (IZR (population p)) /\
    std (r_population_stats res) = None).
Proof.
  intros Hone.
  assert (Hne : pop_df <> []) by (intros ->; discriminate Hone).
  rewrite (analyze_frames_ok df pop_df Hne). cbn [returns r_population_stats mean std].
  unfold window_values. rewrite Hone. apply series_single.
Qed.

Lemma single_row_std_nan_witness :
  returns (analyze_frames (H := insertion_sort) scenario3 scenario4) (fun res =>
    mean (r_population_stats res) = Some 200%R /\
    std (r_population_stats res) = None).
Proof.
  apply (single_row_std_nan (H := insertion_sort) scenario3 scenario4 (mkPop 2015 200)).
  reflexivity.
Defined.

End ViewClaims.

Module PipelineFacts.
Import Frames Analysis Pipeline.

Ltac run :=
  unfold bind, ret, raise, lift, try_except_ClientError, try_except, print,
    requests_get, s3_get_object, s3_put_object, sqs_send_message,
    now_isoformat, os_environ.

Section Sync.
Context (self : DataPipelineHandler) (w : World) (data : list byte).
Hypothesis Horigin : origin w bls_origin = inr data.

(** The stored copy is the fetched one: nothing is written. *)
Lemma sync_bls_data_up_to_date :
  s3_get_fault w = None ->
  s3_objects w !! (bucket_name self, bls_key) = Some data ->
  sync_bls_data self w =
    (inr tt, add_line "BLS data is already up to date" (after_read self w)).
Proof.
  intros Hget Hobj. unfold sync_bls_data. run. cbn.
  rewrite Horigin, Hget, Hobj.
  unfold bytes_eqb. rewrite bool_decide_eq_true_2 by reflexivity. reflexivity.
Qed.

(** Another copy is stored: the fetched one replaces it. *)
Lemma sync_bls_data_changed (old : list byte) :
  s3_get_fault w = None -> s3_put_fault w = None ->
  s3_objects w !! (bucket_name self, bls_key) = Some old -> old <> data ->
  sync_bls_data self w =
    (inr tt, add_line "Successfully updated BLS data" (after_write self data w)).
Proof.
  intros Hget Hput Hobj Hne. unfold sync_bls_data. run. cbn.
  rewrite Horigin, Hget, Hobj.
  unfold bytes_eqb. rewrite bool_decide_eq_false_2 by exact Hne.
  cbn. rewrite Hput. reflexivity.
Qed.

(** The store answers that the key does not exist: the fetched bytes are
    written. *)
Lemma sync_bls_data_absent :
  (s3_get_fault w = None /\ s3_objects w !! (bucket_name self, bls_key) = None) \/
  (exists text, s3_get_fault w = Some (ClientError "NoSuchKey" text)) ->
  s3_put_fault w = None ->
  sync_bls_data self w =
    (inr tt, add_line "Successfully updated BLS data" (after_write self data w)).
Proof.
  intros Hget Hput. unfold sync_bls_data. run. cbn.
  rewrite Horigin.
  destruct Hget as [[Hget Hobj]|[text Hget]]; rewrite Hget; [rewrite Hobj|];
    cbn; rewrite Hput; reflexivity.
Qed.

(** The store fails to read for another reason: the error leaves the
    operation, and nothing is written. *)
Lemma sync_bls_data_get_error (e : exn) :
  s3_get_fault w = Some e -> error_code e <> "NoSuchKey" ->
  sync_bls_data self w =
    (inl e, add_line ("Error syncing BLS data: " ++ str_exn e) (after_read self w)).
Proof.
  intros Hget Hcode. unfold sync_bls_data. run. cbn.
  rewrite Horigin, Hget.
  destruct e as [code text| | |]; try reflexivity.
  cbn in Hcode. apply String.eqb_neq in Hcode. cbn. rewrite Hcode. reflexivity.
Qed.
End Sync.

Lemma writes_add_call (c : Call) (w : World) :
  writes (add_call c w) = (writes w + (if is_put c then 1 else 0))%nat.
Proof.
  unfold writes. cbn. rewrite List.filter_app, length_app. cbn.
  destruct (is_put c); reflexivity.
Qed.

Lemma writes_add_line (s : string) (w : World) : writes (add_line s w) = writes w.
Proof. reflexivity. Qed.

Lemma writes_store_object (b k : string) (body : list byte) (w : World) :
  writes (store_object b k body w) = writes w.
Proof. reflexivity. Qed.

Lemma writes_enqueue (q m : string) (w : World) : writes (enqueue q m w) = writes w.
Proof. reflexivity. Qed.

Ltac count_writes :=
  unfold writes; cbn; rewrite ?List.filter_app, ?length_app; cbn; lia.

(** Whatever the world, one run of [sync_bls_data] makes one write at most. *)
Lemma sync_bls_data_one_write (self : DataPipelineHandler) (w : World) :
  (writes (snd (sync_bls_data self w)) <= writes w + 1)%nat.
Proof.
  unfold sync_bls_data. run. cbn.
  destruct (origin w _) as [e|data]; [count_writes|].
  destruct (s3_get_fault w) as [e|].
  - destruct e as [code text| | |]; try count_writes.
    cbn. destruct (String.eqb code "NoSuchKey"); cbn;
      [destruct (s3_put_fault w) as [e|]|]; count_writes.
  - destruct (s3_objects w !! _) as [old|]; cbn.
    + destruct (bytes_eqb old data); cbn;
        [|destruct (s3_put_fault w) as [e|]]; count_writes.
    + destruct (s3_put_fault w) as [e|]; count_writes.
Qed.

End PipelineFacts.

Module SyncClaims.
Import Frames Analysis Pipeline PipelineFacts Worlds.

(** C5.  When the origin answers and the store is not at fault,
    [sync_bls_data] returns; it writes exactly when the stored blob is not
    the fetched bytes (another blob or none), and then the store holds the
    fetched bytes; a second run on the same payload writes nothing, leaves
    the store as it is and prints that the data is already up to date, so
    that two runs from a store without the payload make one write in all.
    In any world one run makes one write at most. *)
Theorem sync_bls_data_idempotent (self : DataPipelineHandler) (w : World)
    (data : list byte) :
  origin w bls_origin = inr data ->
  s3_get_fault w = None -> s3_put_fault w = None ->
  exists w1 w2,
    sync_bls_data self w = (inr tt, w1) /\
    sync_bls_data self w1 = (inr tt, w2) /\
    (s3_objects w !! (bucket_name self, bls_key) = Some data ->
       writes w1 = writes w /\ s3_objects w1 = s3_objects w) /\
    (s3_objects w !! (bucket_name self, bls_key) <> Some data ->
       writes w1 = S (writes w) /\
       calls w1 = calls w ++ [HttpGet bls_origin; S3Get (bucket_name self) bls_key;
                              S3Put (bucket_name self) bls_key data] /\
       s3_objects w1 = <[(bucket_name self, bls_key) := data]> (s3_objects w) /\
       writes w2 = S (writes w)) /\
    s3_objects w1 !! (bucket_name self, bls_key) = Some data /\
    writes w2 = writes w1 /\
    s3_objects w2 = s3_objects w1 /\
    stdout w2 = stdout w1 ++ ["BLS data is already up to date"] /\
    (forall w', (writes (snd (sync_bls_data self w')) <= writes w' + 1)%nat).
Proof.
  intros Horigin Hget Hput.
  assert (Hsecond : forall w1, origin w1 = origin w -> s3_get_fault w1 = None ->
            s3_objects w1 !! (bucket_name self, bls_key) = Some data ->
            exists w2, sync_bls_data self w1 = (inr tt, w2) /\
              writes w2 = writes w1 /\ s3_objects w2 = s3_objects w1 /\
              stdout w2 = stdout w1 ++ ["BLS data is already up to date"]).
  { intros w1 Ho Hg Hobj. eexists. split.
    - apply (sync_bls_data_up_to_date self w1 data); [now rewrite Ho | exact Hg | exact Hobj].
    - split; [count_writes|]. split; reflexivity. }
  destruct (decide (s3_objects w !! (bucket_name self, bls_key) = Some data)) as [Hsame|Hdiff].
  - pose proof (sync_bls_data_up_to_date self w data Horigin Hget Hsame) as H1.
    set (w1 := add_line "BLS data is already up to date"
                 (add_call (S3Get (bucket_name self) bls_key)
                    (add_call (HttpGet bls_origin) w))) in H1.
    destruct (Hsecond w1 eq_refl Hget Hsame) as [w2 [H2 [Hw [Ho Hs]]]].
    exists w1, w2. split; [exact H1|]. split; [exact H2|].
    split; [intros _; split; [count_writes | reflexivity]|].
    split; [intros Hc; contradiction|].
    split; [exact Hsame|].
    split; [exact Hw|]. split; [exact Ho|]. split; [exact Hs|].
    apply sync_bls_data_one_write.
  - set (w1 := add_line "Successfully updated BLS data"
                 (store_object (bucket_name self) bls_key data
                    (add_call (S3Put (bucket_name self) bls_key data)
                       (add_call (S3Get (bucket_name self) bls_key)
                          (add_call (HttpGet bls_origin) w))))).
    assert (H1 : sync_bls_data self w = (inr tt, w1)).
    { destruct (s3_objects w !! (bucket_name self, bls_key)) as [old|] eqn:E.
      - apply (sync_bls_data_changed self w data Horigin old Hget Hput E). congruence.
      - apply (sync_bls_data_absent self w data Horigin); auto. }
    assert (Hnew : s3_objects w1 !! (bucket_name self, bls_key) = Some data).
    { cbn. apply lookup_insert_eq. }
    destruct (Hsecond w1 eq_refl Hget Hnew) as [w2 [H2 [Hw [Ho Hs]]]].
    exists w1, w2. split; [exact H1|]. split; [exact H2|].
    split; [intros Hc; contradiction|].
    split.
    { intros _. split; [count_writes|]. split; [cbn; now rewrite <- !app_assoc|].
      split; [reflexivity|]. rewrite Hw. count_writes. }
    split; [exact Hnew|].
    split; [exact Hw|]. split; [exact Ho|]. split; [exact Hs|].
    apply sync_bls_data_one_write.
Qed.

Lemma sync_bls_data_idempotent_witness :
  (exists w1 w2,
     sync_bls_data the_handler scenario1 = (inr tt, w1) /\
     sync_bls_data the_handler w1 = (inr tt, w2) /\
     s3_objects w1 !! ("bucket", bls_key) = Some payload1 /\
     writes w2 = 1%nat) /\
  (exists w1,
     sync_bls_data the_handler scenario2 = (inr tt, w1) /\
     s3_objects w1 = s3_objects scenario2 /\
     writes w1 = 0%nat).
Proof.
  split.
  - destruct (sync_bls_data_idempotent the_handler scenario1 payload1
                eq_refl eq_refl eq_refl)
      as [w1 [w2 [H1 [H2 [_ [Hdiff [Hobj _]]]]]]].
    exists w1, w2. split; [exact H1|]. split; [exact H2|]. split; [exact Hobj|].
    apply Hdiff. discriminate.
  - destruct (sync_bls_data_idempotent the_handler scenario2 payloadX
                eq_refl eq_refl eq_refl)
      as [w1 [w2 [H1 [_ [Hsame _]]]]].
    destruct Hsame as [Hw Hobj]; [reflexivity|].
    exists w1. split; [exact H1|]. split; [exact Hobj | exact Hw].
Defined.

(** C8.  When the origin answers and the store answers the read with "key
    not found" (no blob is stored, or the read raises [ClientError] with
    code NoSuchKey), [sync_bls_data] goes on to write the fetched bytes:
    with a store that accepts the write it returns and the store holds the
    bytes, and the only failure it can surface is that of the write.  When
    the read raises anything else, that exception leaves the operation,
    after the two calls of the fetch and the read, and nothing is
    written. *)
Theorem sync_bls_data_not_found (self : DataPipelineHandler) (w : World)
    (data : list byte) :
  origin w bls_origin = inr data ->
  ((s3_get_fault w = None /\ s3_objects w !! (bucket_name self, bls_key) = None) \/
   (exists text, s3_get_fault w = Some (ClientError "NoSuchKey" text)) ->
   exists r w1,
     sync_bls_data self w = (r, w1) /\
     calls w1 = calls w ++ [HttpGet bls_origin; S3Get (bucket_name self) bls_key;
                            S3Put (bucket_name self) bls_key data] /\
     (s3_put_fault w = None ->
        r = inr tt /\ s3_objects w1 !! (bucket_name self, bls_key) = Some data) /\
     (forall e, s3_put_fault w = Some e -> r = inl e)) /\
  (forall e, s3_get_fault w = Some e -> error_code e <> "NoSuchKey" ->
   exists w1,
     sync_bls_data self w = (inl e, w1) /\
     calls w1 = calls w ++ [HttpGet bls_origin; S3Get (bucket_name self) bls_key] /\
     s3_objects w1 = s3_objects w /\
     stdout w1 = stdout w ++ ["Error syncing BLS data: " +:+ str_exn e]).
Proof.
  intros Horigin. split.
  - intros Hnf. destruct (s3_put_fault w) as [e|] eqn:Hput.
    + unfold sync_bls_data. run. cbn. rewrite Horigin.
      destruct Hnf as [[Hget Hobj]|[text Hget]]; rewrite Hget; [rewrite Hobj|];
        cbn; rewrite Hput; cbn; eexists; eexists;
        (split; [reflexivity|]); cbn; rewrite <- !app_assoc;
        (split; [reflexivity|]); (split; [discriminate|]);
        intros e' [= <-]; reflexivity.
    + rewrite (sync_bls_data_absent self w data Horigin Hnf Hput).
      eexists; eexists. split; [reflexivity|]. cbn. rewrite <- !app_assoc.
      split; [reflexivity|]. split; [|discriminate].
      intros _. split; [reflexivity | apply lookup_insert_eq].
  - intros e Hget Hcode.
    rewrite (sync_bls_data_get_error self w data Horigin e Hget Hcode).
    eexists. split; [reflexivity|]. cbn. rewrite <- !app_assoc.
    repeat split; reflexivity.
Qed.

Lemma sync_bls_data_not_found_witness :
  (exists w1, sync_bls_data the_handler scenario1 = (inr tt, w1) /\
              s3_objects w1 !! ("bucket", bls_key) = Some payload1) /\
  (exists w1, sync_bls_data the_handler world_denied = (inl access_denied, w1) /\
              s3_objects w1 = ∅).
Proof.
  split.
  - destruct (sync_bls_data_not_found the_handler scenario1 payload1 eq_refl)
      as [H _].
    destruct H as [r [w1 [Hrun [_ [Hok _]]]]]; [left; split; reflexivity|].
    destruct (Hok eq_refl) as [-> Hobj]. exists w1. split; [exact Hrun | exact Hobj].
  - destruct (sync_bls_data_not_found the_handler world_denied payload1 eq_refl)
      as [_ H].
    destruct (H access_denied eq_refl) as [w1 [Hrun [_ [Hobj _]]]]; [discriminate|].
    exists w1. split; [exact Hrun | exact Hobj].
Defined.

End SyncClaims.

Module HandlerFacts.
Import Frames Analysis Pipeline FramesFacts AnalysisFacts PipelineFacts.

(** Case analysis on the outcome of every call in a run. *)
Ltac outcomes :=
  repeat match goal with
         | |- context [match ?x with _ => _ end] =>
             lazymatch x with
             | context [match _ with _ => _ end] => fail
             | _ => destruct x eqn:?; cbn
             end
         end.

Section Population.
Context `{Externals} (self : DataPipelineHandler) (w : World).
Context (content : list byte) (data : pyobj).
Hypothesis Hfetch : origin w (population_api_url self) = inr content.
Hypothesis Hparse : json_loads content = inr data.

Lemma fetch_population_data_ok :
  s3_put_fault w = None -> sqs_fault w = None ->
  fetch_population_data self w =
    (inr tt, add_line "Successfully updated population data"
               (enqueue (queue_url self) (population_message w)
                  (after_population_send self (population_payload data)
                     (population_message w) w))).
Proof.
  intros Hput Hsqs. unfold fetch_population_data. run. cbn.
  rewrite Hfetch, Hparse. cbn. rewrite Hput. cbn. rewrite Hsqs. reflexivity.
Qed.

Lemma fetch_population_data_put_error (e : exn) :
  s3_put_fault w = Some e ->
  fetch_population_data self w =
    (inl e, add_line ("Error fetching population data: " +:+ str_exn e)
              (after_population_put self (population_payload data) w)).
Proof.
  intros Hput. unfold fetch_population_data. run. cbn.
  rewrite Hfetch, Hparse. cbn. rewrite Hput. reflexivity.
Qed.

Lemma fetch_population_data_sqs_error (e : exn) :
  s3_put_fault w = None -> sqs_fault w = Some e ->
  fetch_population_data self w =
    (inl e, add_line ("Error fetching population data: " +:+ str_exn e)
              (after_population_send self (population_payload data)
                 (population_message w) w)).
Proof.
  intros Hput Hsqs. unfold fetch_population_data. run. cbn.
  rewrite Hfetch, Hparse. cbn. rewrite Hput. cbn. rewrite Hsqs. reflexivity.
Qed.
End Population.

(** The constructor builds the two clients, reads the three variables and
    changes nothing. *)
Lemma init_configured (w : World) (b q u : string) :
  client_fault w "s3" = None -> client_fault w "sqs" = None ->
  environ w !! "BUCKET_NAME" = Some b ->
  environ w !! "QUEUE_URL" = Some q ->
  environ w !! "POPULATION_API_URL" = Some u ->
  init w = (inr (mkHandler b q u), w).
Proof.
  intros Hs3 Hsqs Hb Hq Hu. unfold init, boto3_client. run.
  now rewrite Hs3, Hsqs, Hb, Hq, Hu.
Qed.

Lemma init_world (w w' : World) (r : result DataPipelineHandler) :
  init w = (r, w') -> w' = w.
Proof.
  unfold init, boto3_client. run. intros Hinit.
  destruct (client_fault w "s3"); [now injection Hinit|].
  destruct (client_fault w "sqs"); [now injection Hinit|].
  destruct (environ w !! "BUCKET_NAME"); [|now injection Hinit].
  destruct (environ w !! "QUEUE_URL"); [|now injection Hinit].
  destruct (environ w !! "POPULATION_API_URL"); now injection Hinit.
Qed.

(** The constructor raises exactly when a client cannot be built or a
    variable is missing. *)
Lemma init_raises_iff (w : World) :
  (exists e, init w = (inl e, w)) <->
  ~ (client_fault w "s3" = None /\ client_fault w "sqs" = None /\
     is_Some (environ w !! "BUCKET_NAME") /\
     is_Some (environ w !! "QUEUE_URL") /\
     is_Some (environ w !! "POPULATION_API_URL")).
Proof.
  unfold init, boto3_client. run.
  destruct (client_fault w "s3") as [e1|];
    [split; [intros _ [Hc _]; discriminate Hc | eauto]|].
  destruct (client_fault w "sqs") as [e2|];
    [split; [intros _ [_ [Hc _]]; discriminate Hc | eauto]|].
  destruct (environ w !! "BUCKET_NAME") as [b|];
    [|split; [intros _ [_ [_ [[x Hc] _]]]; discriminate Hc | eauto]].
  destruct (environ w !! "QUEUE_URL") as [q|];
    [|split; [intros _ [_ [_ [_ [[x Hc] _]]]]; discriminate Hc | eauto]].
  destruct (environ w !! "POPULATION_API_URL") as [u|];
    [|split; [intros _ [_ [_ [_ [_ [x Hc]]]]]; discriminate Hc | eauto]].
  split; [intros [e He]; discriminate He|].
  intros Hn. exfalso. apply Hn. repeat split; eauto.
Qed.

(** With both blobs stored and parsed, [analyze_data] reads them and
    returns the analysis of the two frames. *)
Lemma analyze_data_loaded `{Externals} `{Sorter} (self : DataPipelineHandler) (w : World)
    (bls_body pop_body : list byte) (pop_data : pyobj)
    (bls_df : DataFrame) (pop_df : list PopRow) :
  s3_get_fault w = None ->
  s3_objects w !! (bucket_name self, bls_key) = Some bls_body ->
  s3_objects w !! (bucket_name self, population_key) = Some pop_body ->
  read_csv bls_body = inr bls_df ->
  json_loads pop_body = inr pop_data ->
  pd_DataFrame pop_data = inr pop_df ->
  pop_df <> [] ->
  exists res,
    analyze_frames bls_df pop_df = inr res /\
    analyze_data self w =
      (inr res, add_call (S3Get (bucket_name self) population_key)
                  (add_call (S3Get (bucket_name self) bls_key) w)).
Proof.
  intros Hget Hbls Hpop Hcsv Hjson Hframe Hne.
  pose proof (analyze_frames_ok bls_df pop_df Hne) as Hok.
  eexists. split; [exact Hok|].
  unfold analyze_data. run. cbn -[analyze_frames].
  rewrite Hget, Hbls, Hcsv. cbn -[analyze_frames].
  now rewrite Hget, Hpop, Hjson, Hframe, Hok.
Qed.

Section Dispatch.
Context `{Externals} `{Sorter}.
Context (event context : gmap string pyobj) (w : World) (handler : DataPipelineHandler).

(** Once the handler object is built, the entry point is the guarded
    branch. *)
Lemma lambda_handler_configured :
  init w = (inr handler, w) ->
  lambda_handler event context w =
    try_except
      (match event !! "Records" with
       | Some _ => analysis_branch handler
       | None => sync_branch handler
       end) error_response w.
Proof. intros Hinit. unfold lambda_handler, bind at 1. now rewrite Hinit. Qed.

(** An exception of the constructor leaves the entry point. *)
Lemma lambda_handler_unconfigured (e : exn) (w' : World) :
  init w = (inl e, w') -> lambda_handler event context w = (inl e, w').
Proof. intros Hinit. unfold lambda_handler, bind at 1. now rewrite Hinit. Qed.

(** The guard turns every outcome of a branch into a response. *)
Lemma guarded_outcome (branch : M Response) :
  try_except branch error_response w =
    match branch w with
    | (inr resp, w1) => (inr resp, w1)
    | (inl e, w1) =>
        (inr (mkResponse 500 (json_dumps None (PyDict [("error", PyStr (str_exn e))]))),
         add_line ("Error in lambda_handler: " +:+ str_exn e) w1)
    end.
Proof.
  unfold try_except, error_response. run.
  destruct (branch w) as [[e|resp] w1]; reflexivity.
Qed.

(** The analysis branch only reads the store, and answers 200 with the
    serialised result when it returns. *)
Lemma analysis_branch_reads :
  exists reads,
    calls_then w (snd (analysis_branch handler w)) reads /\
    Forall (fun c => exists key, c = S3Get (bucket_name handler) key) reads /\
    (forall resp, fst (analysis_branch handler w) = inr resp ->
       exists results,
         resp = mkResponse 200 (json_dumps None (result_to_dict results))).
Proof.
  unfold calls_then, analysis_branch, analyze_data. run. cbn.
  outcomes;
    (eexists; split; [cbn; rewrite <- ?app_assoc; reflexivity|]; split;
     [cbn; repeat (constructor; [eexists; reflexivity|]); constructor
     |intros resp Hresp; cbn in Hresp; try discriminate Hresp;
      injection Hresp as <-; eexists; reflexivity]).
Qed.

(** The sync branch starts with the fetch of the time series, runs the
    population sync after a time-series sync that returned, and not at
    all after one that raised. *)
Lemma sync_branch_order :
  (exists rest,
     calls_then w (snd (sync_branch handler w)) (HttpGet bls_origin :: rest)) /\
  (forall w1, sync_bls_data handler w = (inr tt, w1) ->
     sync_branch handler w =
       (fetch_population_data handler;;;
        ret (mkResponse 200
               (json_dumps None
                  (PyDict [("message", PyStr "Sync completed successfully")])))) w1) /\
  (forall e w1, sync_bls_data handler w = (inl e, w1) ->
     sync_branch handler w = (inl e, w1)) /\
  (forall resp, fst (sync_branch handler w) = inr resp ->
     resp = mkResponse 200
              (json_dumps None
                 (PyDict [("message", PyStr "Sync completed successfully")]))).
Proof.
  split; [|split; [|split]].
  - unfold calls_then, sync_branch, sync_bls_data, fetch_population_data. run. cbn.
    outcomes; eexists; cbn; rewrite <- ?app_assoc; reflexivity.
  - intros w1 Hsync. unfold sync_branch, bind at 1. now rewrite Hsync.
  - intros e w1 Hsync. unfold sync_branch, bind at 1. now rewrite Hsync.
  - unfold sync_branch. run.
    destruct (sync_bls_data handler w) as [[e|[]] w1]; cbn; [discriminate|].
    destruct (fetch_population_data handler w1) as [[e|[]] w2]; cbn; [discriminate|].
    now intros resp [= <-].
Qed.
End Dispatch.

End HandlerFacts.

Module HandlerClaims.
Import Frames Analysis Pipeline PipelineFacts HandlerFacts Worlds Configuration.

(** C9.  When the population origin answers and its payload parses,
    [fetch_population_data] fetches and then writes the serialised payload
    to the population key without reading the store, whatever the store
    holds.  With a store that accepts the write, the store holds the
    serialised payload and the next and last call sends one message, whose
    body is the serialised dictionary of type population_update and of
    timestamp the ISO form of the clock; the queue accepting it, the
    operation returns and the queue has that one message more.  With a
    store that refuses the write, the exception of the store leaves the
    operation, no message is sent and the store is unchanged. *)
Theorem fetch_population_data_overwrites `{Externals} (self : DataPipelineHandler)
    (w : World) (content : list byte) (data : pyobj) :
  origin w (population_api_url self) = inr content ->
  json_loads content = inr data ->
  let payload := list_byte_of_string (json_dumps None data) in
  let message :=
    json_dumps None
      (PyDict [("type", PyStr "population_update"); ("timestamp", PyStr (clock w))]) in
  let fetch := HttpGet (population_api_url self) in
  let put := S3Put (bucket_name self) population_key payload in
  exists r w1,
    fetch_population_data self w = (r, w1) /\
    (s3_put_fault w = None ->
       calls w1 = calls w ++ [fetch; put; SqsSend (queue_url self) message] /\
       s3_objects w1 = <[(bucket_name self, population_key) := payload]> (s3_objects w) /\
       (sqs_fault w = None ->
          r = inr tt /\
          sqs_messages w1 = sqs_messages w ++ [(queue_url self, message)]) /\
       (forall e, sqs_fault w = Some e ->
          r = inl e /\ sqs_messages w1 = sqs_messages w)) /\
    (forall e, s3_put_fault w = Some e ->
       r = inl e /\
       calls w1 = calls w ++ [fetch; put] /\
       sqs_messages w1 = sqs_messages w /\
       s3_objects w1 = s3_objects w).
Proof.
  intros Hfetch Hparse payload message fetch put.
  destruct (s3_put_fault w) as [e|] eqn:Hput.
  - rewrite (fetch_population_data_put_error self w content data Hfetch Hparse e Hput).
    eexists; eexists. split; [reflexivity|]. split; [discriminate|].
    intros e' [= <-]. cbn. rewrite <- !app_assoc. repeat split; reflexivity.
  - destruct (sqs_fault w) as [e|] eqn:Hsqs.
    + rewrite (fetch_population_data_sqs_error self w content data Hfetch Hparse e Hput Hsqs).
      eexists; eexists. split; [reflexivity|]. split; [|discriminate].
      intros _. cbn. rewrite <- !app_assoc.
      split; [reflexivity|]. split; [reflexivity|]. split; [discriminate|].
      intros e' [= <-]. split; reflexivity.
    + rewrite (fetch_population_data_ok self w content data Hfetch Hparse Hput Hsqs).
      eexists; eexists. split; [reflexivity|]. split; [|discriminate].
      intros _. cbn. rewrite <- !app_assoc.
      split; [reflexivity|]. split; [reflexivity|]. split; [|discriminate].
      intros _. split; reflexivity.
Qed.

Lemma fetch_population_data_overwrites_witness :
  (exists w1,
     fetch_population_data (H := mock_externals) the_handler scenario1 = (inr tt, w1) /\
     sqs_messages w1 = [("queue", "{type,timestamp}")]) /\
  (exists e w1,
     fetch_population_data (H := mock_externals) the_handler world_readonly = (inl e, w1) /\
     sqs_messages w1 = []).
Proof.
  split.
  - destruct (fetch_population_data_overwrites (H := mock_externals)
                the_handler scenario1 payload1 (PyList []) eq_refl eq_refl)
      as [r [w1 [Hrun [Hok _]]]].
    destruct (Hok eq_refl) as [_ [_ [Hsent _]]].
    destruct (Hsent eq_refl) as [-> Hq]. exists w1. split; [exact Hrun | exact Hq].
  - destruct (fetch_population_data_overwrites (H := mock_externals)
                the_handler world_readonly payload1 (PyList []) eq_refl eq_refl)
      as [r [w1 [Hrun [_ Hfail]]]].
    destruct (Hfail write_denied eq_refl) as [-> [_ [Hq _]]].
    exists write_denied, w1. split; [exact Hrun | exact Hq].
Defined.

(** C6, as stated: the analysis runs exactly for the triggers with a
    nonempty batch of records, every other trigger runs the sync.  It fails
    on a trigger whose batch is empty: the batch is not nonempty, and the
    entry point runs the analysis (it reads the store, finds no blob and
    answers 500) where the sync would have fetched and written.  It also
    fails where the handler object cannot be built: with a nonempty batch,
    in a process without the configuration, no path runs and not one call
    is made. *)
Lemma dispatch_empty_batch :
  nonempty_batch empty_batch = false /\
  calls (snd (lambda_handler (H := mock_externals) (H0 := insertion_sort)
                empty_batch ∅ scenario1))
    = [S3Get "bucket" bls_key] /\
  lambda_handler (H := mock_externals) (H0 := insertion_sort) empty_batch ∅ scenario1
    = try_except (analysis_branch (H := mock_externals) (H0 := insertion_sort) the_handler)
        (error_response (H := mock_externals)) scenario1 /\
  lambda_handler (H := mock_externals) (H0 := insertion_sort) empty_batch ∅ scenario1
    <> try_except (sync_branch (H := mock_externals) the_handler)
         (error_response (H := mock_externals)) scenario1 /\
  nonempty_batch one_record = true /\
  lambda_handler (H := mock_externals) (H0 := insertion_sort) one_record ∅
    world_unconfigured
    = (inl (KeyError "BUCKET_NAME"), world_unconfigured) /\
  calls world_unconfigured = [].
Proof.
  split; [reflexivity|]. split; [reflexivity|]. split; [reflexivity|].
  split.
  - intros Heq. apply (f_equal (fun x => calls (snd x))) in Heq.
    vm_compute in Heq. discriminate Heq.
  - split; [reflexivity|]. split; reflexivity.
Qed.

(** C6, amended.  Where the handler object is built (boto3 builds the s3
    and the sqs client and the three variables are set), the entry point
    runs the analysis branch exactly when the trigger has the key Records,
    whatever is under it, and the sync branch otherwise.  The analysis
    branch only reads the store.  The sync branch starts with the fetch of
    the time series; it runs the population sync after the time-series sync
    has returned, and does not run it when the time-series sync raised.
    Where the constructor raises, no branch runs: the entry point raises
    the exception of the constructor and the world is as before. *)
Theorem dispatch_on_records_key `{Externals} `{Sorter}
    (event context : gmap string pyobj) (w : World) :
  (forall b q u,
     client_fault w "s3" = None -> client_fault w "sqs" = None ->
     environ w !! "BUCKET_NAME" = Some b ->
     environ w !! "QUEUE_URL" = Some q ->
     environ w !! "POPULATION_API_URL" = Some u ->
     let handler := mkHandler b q u in
     (is_Some (event !! "Records") ->
        lambda_handler event context w =
          try_except (analysis_branch handler) error_response w /\
        exists reads,
          calls (snd (lambda_handler event context w)) = calls w ++ reads /\
          Forall (fun c => exists key, c = S3Get b key) reads) /\
     (event !! "Records" = None ->
        lambda_handler event context w =
          try_except (sync_branch handler) error_response w /\
        (exists rest,
           calls (snd (lambda_handler event context w))
             = calls w ++ HttpGet bls_origin :: rest) /\
        (forall w1, sync_bls_data handler w = (inr tt, w1) ->
           sync_branch handler w =
             (fetch_population_data handler;;;
              ret (mkResponse 200
                     (json_dumps None
                        (PyDict [("message", PyStr "Sync completed successfully")])))) w1) /\
        (forall e w1, sync_bls_data handler w = (inl e, w1) ->
           sync_branch handler w = (inl e, w1)))) /\
  (forall e w1, init w = (inl e, w1) ->
     lambda_handler event context w = (inl e, w) /\ w1 = w) /\
  ((exists e, init w = (inl e, w)) <->
   ~ (client_fault w "s3" = None /\ client_fault w "sqs" = None /\
      is_Some (environ w !! "BUCKET_NAME") /\
      is_Some (environ w !! "QUEUE_URL") /\
      is_Some (environ w !! "POPULATION_API_URL"))).
Proof.
  split; [|split].
  - intros b q u Hs3 Hsqs Hb Hq Hu handler.
    pose proof (init_configured w b q u Hs3 Hsqs Hb Hq Hu) as Hinit.
    pose proof (lambda_handler_configured event context w handler Hinit) as Hrun.
    split.
    + intros [v Hv]. rewrite Hv in Hrun. split; [exact Hrun|].
      rewrite Hrun, guarded_outcome.
      destruct (analysis_branch_reads w handler) as [reads [Hcalls [Hreads _]]].
      exists reads. split; [|exact Hreads].
      unfold calls_then in Hcalls.
      destruct (analysis_branch handler w) as [[e|resp] w1]; exact Hcalls.
    + intros Hnone. rewrite Hnone in Hrun. split; [exact Hrun|].
      destruct (sync_branch_order w handler) as [[rest Hcalls] [Hthen [Hstop _]]].
      split; [|split; [exact Hthen | exact Hstop]].
      exists rest. rewrite Hrun, guarded_outcome.
      unfold calls_then in Hcalls.
      destruct (sync_branch handler w) as [[e|resp] w1]; exact Hcalls.
  - intros e w1 Hinit. pose proof (init_world w w1 _ Hinit) as ->.
    split; [|reflexivity]. now apply lambda_handler_unconfigured.
  - apply init_raises_iff.
Qed.

Lemma dispatch_on_records_key_witness :
  lambda_handler (H := mock_externals) (H0 := insertion_sort) empty_batch ∅ scenario1
    = try_except (analysis_branch (H := mock_externals) (H0 := insertion_sort) the_handler)
        (error_response (H := mock_externals)) scenario1 /\
  lambda_handler (H := mock_externals) (H0 := insertion_sort) scheduled ∅ scenario1
    = try_except (sync_branch (H := mock_externals) the_handler)
        (error_response (H := mock_externals)) scenario1 /\
  lambda_handler (H := mock_externals) (H0 := insertion_sort) one_record ∅ world_no_region
    = (inl no_region, world_no_region).
Proof.
  destruct (dispatch_on_records_key (H := mock_externals) (H0 := insertion_sort)
              empty_batch ∅ scenario1) as [Hbuilt _].
  destruct (Hbuilt "bucket" "queue" "https://population.example/data"
              eq_refl eq_refl eq_refl eq_refl eq_refl) as [Hanalysis _].
  destruct (dispatch_on_records_key (H := mock_externals) (H0 := insertion_sort)
              scheduled ∅ scenario1) as [Hbuilt' _].
  destruct (Hbuilt' "bucket" "queue" "https://population.example/data"
              eq_refl eq_refl eq_refl eq_refl eq_refl) as [_ Hsync].
  destruct (dispatch_on_records_key (H := mock_externals) (H0 := insertion_sort)
              one_record ∅ world_no_region) as [_ [Hraise _]].
  split; [|split].
  - destruct Hanalysis as [Hrun _]; [eexists; reflexivity | exact Hrun].
  - destruct Hsync as [Hrun _]; [reflexivity | exact Hrun].
  - destruct (Hraise no_region world_no_region eq_refl) as [Hrun _]. exact Hrun.
Defined.

(** C7, as stated: no error escapes the entry point.  It fails in a
    process without the configuration of the handler: the constructor of
    the handler object runs before the [try], and its [KeyError] leaves the
    entry point; so does the exception of boto3 in a process without a
    region. *)
Lemma lambda_handler_escape :
  lambda_handler (H := mock_externals) (H0 := insertion_sort) scheduled ∅ world_unconfigured
    = (inl (KeyError "BUCKET_NAME"), world_unconfigured) /\
  lambda_handler (H := mock_externals) (H0 := insertion_sort) scheduled ∅ world_no_region
    = (inl no_region, world_no_region).
Proof. split; reflexivity. Qed.

(** C7, amended.  Where the handler object is built (boto3 builds the s3
    and the sqs client and the three variables are set), the entry point
    returns a response for every trigger: when the branch it runs returns,
    the response of the branch, of status 200 and of body the serialised
    analysis result or the serialised success message; when the branch
    raises, the status 500 with the serialised dictionary of key error and
    of value the text of the exception, after a line on the standard
    output.  Where the constructor raises (a client that cannot be built, a
    variable that is missing), its exception leaves the entry point, and
    the world is as before. *)
Theorem lambda_handler_envelope `{Externals} `{Sorter}
    (event context : gmap string pyobj) (w : World) :
  (forall b q u,
     client_fault w "s3" = None -> client_fault w "sqs" = None ->
     environ w !! "BUCKET_NAME" = Some b ->
     environ w !! "QUEUE_URL" = Some q ->
     environ w !! "POPULATION_API_URL" = Some u ->
     let handler := mkHandler b q u in
     let branch :=
       match event !! "Records" with
       | Some _ => analysis_branch handler
       | None => sync_branch handler
       end in
     exists resp w',
       lambda_handler event context w = (inr resp, w') /\
       match branch w with
       | (inr value, w1) =>
           resp = value /\ w' = w1 /\ statusCode resp = 200 /\
           (body resp = json_dumps None
                          (PyDict [("message", PyStr "Sync completed successfully")]) \/
            exists results, body resp = json_dumps None (result_to_dict results))
       | (inl e, w1) =>
           resp = mkResponse 500 (json_dumps None (PyDict [("error", PyStr (str_exn e))])) /\
           w' = add_line ("Error in lambda_handler: " +:+ str_exn e) w1
       end) /\
  (forall e w1, init w = (inl e, w1) ->
     lambda_handler event context w = (inl e, w) /\ w1 = w) /\
  ((exists e, init w = (inl e, w)) <->
   ~ (client_fault w "s3" = None /\ client_fault w "sqs" = None /\
      is_Some (environ w !! "BUCKET_NAME") /\
      is_Some (environ w !! "QUEUE_URL") /\
      is_Some (environ w !! "POPULATION_API_URL"))).
Proof.
  split; [|split].
  - intros b q u Hs3 Hsqs Hb Hq Hu handler branch.
    pose proof (init_configured w b q u Hs3 Hsqs Hb Hq Hu) as Hinit.
    rewrite (lambda_handler_configured event context w handler Hinit).
    fold branch. rewrite guarded_outcome.
    assert (Hshape : forall value, fst (branch w) = inr value ->
              statusCode value = 200 /\
              (body value = json_dumps None
                              (PyDict [("message", PyStr "Sync completed successfully")]) \/
               exists results, body value = json_dumps None (result_to_dict results))).
    { intros value Hvalue. unfold branch in Hvalue.
      destruct (event !! "Records").
      - destruct (analysis_branch_reads w handler) as [_ [_ [_ Hresp]]].
        destruct (Hresp value Hvalue) as [results ->]. split; [reflexivity|].
        right. exists results. reflexivity.
      - destruct (sync_branch_order w handler) as [_ [_ [_ Hresp]]].
        rewrite (Hresp value Hvalue). split; [reflexivity | left; reflexivity]. }
    destruct (branch w) as [[e|value] w1].
    + eexists; eexists. split; [reflexivity|]. split; reflexivity.
    + eexists; eexists. split; [reflexivity|].
      destruct (Hshape value eq_refl) as [Hstatus Hbody]. auto.
  - intros e w1 Hinit. pose proof (init_world w w1 _ Hinit) as ->.
    split; [|reflexivity]. now apply lambda_handler_unconfigured.
  - apply init_raises_iff.
Qed.

Lemma lambda_handler_envelope_witness :
  (exists resp w',
     lambda_handler (H := mock_externals) (H0 := insertion_sort) scheduled ∅ scenario1
       = (inr resp, w') /\
     statusCode resp = 200) /\
  lambda_handler (H := mock_externals) (H0 := insertion_sort) scheduled ∅
    world_unconfigured
    = (inl (KeyError "BUCKET_NAME"), world_unconfigured).
Proof.
  split.
  - destruct (lambda_handler_envelope (H := mock_externals) (H0 := insertion_sort)
                scheduled ∅ scenario1) as [Hbuilt _].
    destruct (Hbuilt "bucket" "queue" "https://population.example/data"
                eq_refl eq_refl eq_refl eq_refl eq_refl) as [resp [w' [Hrun Hcase]]].
    exists resp, w'. split; [exact Hrun|].
    assert (Hvalue : fst (lambda_handler (H := mock_externals) (H0 := insertion_sort)
                            scheduled ∅ scenario1) = inr (mkResponse 200 "{message}"))
      by (vm_compute; reflexivity).
    rewrite Hrun in Hvalue. injection Hvalue as ->. reflexivity.
  - destruct (lambda_handler_envelope (H := mock_externals) (H0 := insertion_sort)
                scheduled ∅ world_unconfigured) as [_ [Hraise _]].
    destruct (Hraise (KeyError "BUCKET_NAME") world_unconfigured eq_refl) as [Hrun _].
    exact Hrun.
Defined.

End HandlerClaims.

Module OrderFacts.
Import Frames Analysis FramesFacts AnalysisFacts.

Lemma compare_Lt_trans (a b c : string) :
  String.compare a b = Lt -> String.compare b c = Lt -> String.compare a c = Lt.
Proof.
  intros Hab Hbc.
  apply OrderedTypeEx.String_as_OT.cmp_lt.
  apply OrderedTypeEx.String_as_OT.cmp_lt in Hab, Hbc.
  eapply OrderedTypeEx.String_as_OT.lt_trans; eassumption.
Qed.

Lemma compare_Eq (a b : string) : String.compare a b = Eq <-> a = b.
Proof. apply OrderedTypeEx.String_as_OT.cmp_eq. Qed.

Lemma key_le_trans : Transitive key_le.
Proof.
  intros [s1 y1] [s2 y2] [s3 y3]. unfold key_le. simpl.
  destruct (String.compare s1 s2) eqn:E12; [|intros _|contradiction].
  - apply compare_Eq in E12. subst s2.
    destruct (String.compare s1 s3); [lia|auto|contradiction].
  - destruct (String.compare s2 s3) eqn:E23; [|intros _|contradiction].
    + apply compare_Eq in E23. subst s3. now rewrite E12.
    + now rewrite (compare_Lt_trans _ _ _ E12 E23).
Qed.

Lemma key_le_antisym : AntiSymm (=) key_le.
Proof.
  intros [s1 y1] [s2 y2]. unfold key_le. simpl.
  rewrite (String.compare_antisym s2 s1).
  destruct (String.compare s1 s2) eqn:E; simpl; try contradiction.
  apply compare_Eq in E. subst s2. intros H1 H2. f_equal. lia.
Qed.

Lemma key_le_total : Total key_le.
Proof.
  intros [s1 y1] [s2 y2]. unfold key_le. simpl.
  rewrite (String.compare_antisym s2 s1).
  destruct (String.compare s1 s2); simpl; [lia | now left | now right].
Qed.

(** The grouped frame does not depend on the order of the rows. *)
Lemma group_keys_Permutation (df df' : DataFrame) :
  Permutation df df' -> group_keys df = group_keys df'.
Proof.
  intros Hp. unfold group_keys.
  apply (@Sorted_unique _ key_le key_le_trans key_le_antisym).
  - apply (@Sorted_merge_sort _ key_le _ key_le_total).
  - apply (@Sorted_merge_sort _ key_le _ key_le_total).
  - rewrite !merge_sort_Permutation.
    apply NoDup_Permutation; [apply NoDup_remove_dups | apply NoDup_remove_dups |].
    intros k. rewrite !elem_of_remove_dups.
    now rewrite (Permutation_map row_key Hp).
Qed.

Lemma sum_values_Permutation (l l' : list BlsRow) :
  Permutation l l' -> sum_values l = sum_values l'.
Proof.
  intros Hp. rewrite !sum_values_wrap. f_equal.
  induction Hp; simpl; lia.
Qed.

Lemma filter_Permutation {A} (f : A -> bool) (l l' : list A) :
  Permutation l l' -> Permutation (List.filter f l) (List.filter f l').
Proof.
  induction 1 as [|x l l' Hp IH|x y l|l l' l'' H1 IH1 H2 IH2]; simpl.
  - constructor.
  - destruct (f x); [now constructor | exact IH].
  - destruct (f x), (f y); try reflexivity. apply perm_swap.
  - now transitivity (List.filter f l').
Qed.

Lemma groupby_sum_Permutation (df df' : DataFrame) :
  Permutation df df' -> groupby_sum df = groupby_sum df'.
Proof.
  intros Hp. unfold groupby_sum. rewrite (group_keys_Permutation df df' Hp).
  apply map_ext. intros k. f_equal.
  apply sum_values_Permutation, filter_Permutation, Hp.
Qed.

End OrderFacts.

Module AnalysisExtras.
Import Frames Analysis FramesFacts AnalysisFacts ReportFacts StatsFacts OrderFacts Scenarios.

Lemma string_le_trans : Transitive string_le.
Proof.
  intros a b c. unfold string_le, String.leb.
  destruct (String.compare a b) eqn:Eab; [|intros _|discriminate].
  - apply compare_Eq in Eab. now subst b.
  - destruct (String.compare b c) eqn:Ebc; [|intros _|discriminate].
    + apply compare_Eq in Ebc. subst c. now rewrite Eab.
    + now rewrite (compare_Lt_trans _ _ _ Eab Ebc).
Qed.

Lemma string_le_antisym : AntiSymm (=) string_le.
Proof. intros a b. apply String.leb_antisym. Qed.

Lemma string_le_total : Total string_le.
Proof. intros a b. apply String.leb_total. Qed.

(** Every series of the frame has a first row: no key is dropped. *)
Lemma groupby_first_keys_all (l : list GroupRow) :
  map fst (groupby_first l) = series_keys l.
Proof.
  unfold groupby_first.
  assert (Hall : forall s, s ∈ series_keys l -> is_Some (first_of_series s l)).
  { intros s Hs. apply elem_of_series_keys in Hs as [g [Hg Hgs]].
    now apply (first_of_series_is_Some s l g). }
  induction (series_keys l) as [|k ks IH]; simpl; [reflexivity|].
  destruct (Hall k (list_elem_of_here _ _)) as [g Hg]. rewrite Hg. simpl.
  f_equal. apply IH. intros s Hs. apply Hall. now right.
Qed.

(** X17.  The keys of [best_years] are the distinct series identifiers of the
    frame, in ascending order; their number is the number of distinct
    identifiers. *)
Theorem best_years_keys (S : Sorter) (df : DataFrame) :
  DescendingSort S ->
  map fst (best_years df) = merge_sort string_le (remove_dups (map series_id df)) /\
  length (best_years df) = length (remove_dups (map series_id df)).
Proof.
  intros HS.
  assert (Hkeys : map fst (best_years df) =
                  merge_sort string_le (remove_dups (map series_id df))).
  { unfold best_years. rewrite groupby_first_keys_all. unfold series_keys.
    apply (@Sorted_unique _ string_le string_le_trans string_le_antisym).
    - apply (@Sorted_merge_sort _ string_le _ string_le_total).
    - apply (@Sorted_merge_sort _ string_le _ string_le_total).
    - rewrite !merge_sort_Permutation.
      apply NoDup_Permutation; [apply NoDup_remove_dups | apply NoDup_remove_dups |].
      intros s. rewrite !elem_of_remove_dups.
      rewrite <- (best_years_series S HS df s).
      unfold best_years. rewrite groupby_first_keys_all.
      unfold series_keys. now rewrite merge_sort_Permutation, elem_of_remove_dups. }
  split; [exact Hkeys|].
  rewrite <- (length_map fst), Hkeys.
  apply Permutation_length, merge_sort_Permutation.
Qed.

Lemma best_years_keys_witness :
  map fst (best_years (H := insertion_sort)
             (mkBls "S2" 2020 "Q01" 1 :: mkBls "S1" 2019 "Q01" 4 :: scenario3))
    = ["S1"; "S2"].
Proof.
  destruct (best_years_keys insertion_sort
              (mkBls "S2" 2020 "Q01" 1 :: mkBls "S1" 2019 "Q01" 4 :: scenario3)
              insertion_sort_descending) as [Hkeys _].
  rewrite Hkeys. vm_compute. reflexivity.
Defined.

(** X18.  [best_years] does not depend on the order of the rows of the time
    series. *)
Theorem best_years_order_independent `{Sorter} (df df' : DataFrame) :
  Permutation df df' -> best_years df = best_years df'.
Proof.
  intros Hp. unfold best_years. now rewrite (groupby_sum_Permutation df df' Hp).
Qed.

Lemma best_years_order_independent_witness :
  best_years (H := insertion_sort) (rev scenario3)
    = best_years (H := insertion_sort) scenario3.
Proof.
  apply (best_years_order_independent (H := insertion_sort)).
  symmetry. apply Permutation_rev.
Defined.

Lemma in_group_same_key (k : string * Z) (r r' : BlsRow) :
  row_key r = row_key r' -> in_group k r = in_group k r'.
Proof. unfold in_group, row_key. now intros [= -> ->]. Qed.

Lemma groupby_sum_columns (df df' : DataFrame) :
  map (fun r => (row_key r, value r)) df = map (fun r => (row_key r, value r)) df' ->
  groupby_sum df = groupby_sum df'.
Proof.
  intros Hcols. unfold groupby_sum, group_keys.
  assert (Hk : map row_key df = map row_key df').
  { apply (f_equal (map fst)) in Hcols. now rewrite !map_map in Hcols. }
  rewrite Hk. apply map_ext. intros k. f_equal. clear Hk.
  rewrite !sum_values_wrap. f_equal.
  revert df' Hcols. induction df as [|r df IH]; intros [|r' df'] Hcols;
    try discriminate; [reflexivity|].
  simpl in Hcols. injection Hcols as Hs Hy Hval Hrest. simpl.
  assert (Hkey : row_key r = row_key r') by (unfold row_key; congruence).
  rewrite (in_group_same_key k r r' Hkey).
  destruct (in_group k r'); simpl; rewrite ?Hval; now rewrite (IH df' Hrest).
Qed.

(** X19.  [best_years] reads the columns series_id, year and value only: the
    total of a year is taken over all its rows, whatever their period. *)
Theorem best_years_ignores_period `{Sorter} (df df' : DataFrame) :
  map (fun r => (series_id r, year r, value r)) df
    = map (fun r => (series_id r, year r, value r)) df' ->
  best_years df = best_years df'.
Proof.
  intros Hcols. unfold best_years. f_equal. f_equal.
  apply groupby_sum_columns. unfold row_key. exact Hcols.
Qed.

Lemma best_years_ignores_period_witness :
  best_years (H := insertion_sort)
    [mkBls "S1" 2020 "Q05" 5; mkBls "S1" 2021 "Q02" 10]
    = best_years (H := insertion_sort) scenario3.
Proof.
  apply (best_years_ignores_period (H := insertion_sort)). reflexivity.
Defined.

(** X20.  A time-series frame without rows gives an empty [best_years] and an
    empty [combined_report]; the statistics are still computed. *)
Theorem analyze_frames_no_rows (S : Sorter) (pop_df : list PopRow) :
  DescendingSort S -> pop_df <> [] ->
  returns (analyze_frames [] pop_df) (fun res =>
    r_best_years res = [] /\ r_combined_report res = [] /\
    r_population_stats res =
      mkStats (series_mean (window_values pop_df)) (series_std (window_values pop_df))).
Proof.
  intros HS Hne. rewrite (analyze_frames_ok [] pop_df Hne). simpl.
  split; [|split; reflexivity].
  unfold best_years.
  assert (Hg : groupby_sum [] = []) by reflexivity.
  rewrite Hg. destruct (HS []) as [Hp _].
  symmetry in Hp. apply Permutation_nil in Hp. now rewrite Hp.
Qed.

Lemma analyze_frames_no_rows_witness :
  returns (analyze_frames (H := insertion_sort) [] scenario4) (fun res =>
    r_best_years res = [] /\ r_combined_report res = []).
Proof.
  pose proof (analyze_frames_no_rows insertion_sort scenario4
                insertion_sort_descending ltac:(discriminate)) as H0.
  destruct (analyze_frames _ _) as [e|res]; simpl in *; [exact H0|].
  destruct H0 as [Hb [Hr _]]. split; assumption.
Defined.

(** X21.  When the population frame has rows but none with a year between 2013
    and 2018, the analysis returns, with a NaN mean and a NaN standard
    deviation. *)
Theorem population_stats_empty_window `{Sorter} (df : DataFrame) (pop_df : list PopRow) :
  pop_df <> [] ->
  (forall p, p ∈ pop_df -> pop_year p < 2013 \/ 2018 < pop_year p) ->
  returns (analyze_frames df pop_df) (fun res =>
    mean (r_population_stats res) = None /\ std (r_population_stats res) = None).
Proof.
  intros Hne Hout. rewrite (analyze_frames_ok df pop_df Hne).
  cbn [returns r_population_stats mean std].
  assert (Hnil : List.filter in_window pop_df = []).
  { apply filter_nil_iff. intros p Hp.
    destruct (in_window p) eqn:E; [|reflexivity].
    apply in_window_true in E. destruct (Hout p Hp); lia. }
  unfold window_values. rewrite Hnil. split; reflexivity.
Qed.

Lemma population_stats_empty_window_witness :
  returns (analyze_frames (H := insertion_sort) scenario3 [mkPop 2012 100; mkPop 2019 300])
    (fun res => mean (r_population_stats res) = None /\
                std (r_population_stats res) = None).
Proof.
  apply (population_stats_empty_window (H := insertion_sort)); [discriminate|].
  intros p Hp. rewrite !elem_of_cons in Hp.
  destruct Hp as [->|[->|Hp]]; [left; reflexivity | right; reflexivity | inversion Hp].
Defined.

(** X22.  The records of [combined_report] are the selected rows in their
    order, each repeated once per population row of its year, and kept once
    when no population row has its year. *)
Theorem combined_report_multiplicity (df : DataFrame) (pop_df : list PopRow) :
  map source_row (combined_report df pop_df) =
  flat_map (fun r =>
              replicate (Nat.max 1 (length (List.filter (same_year r) pop_df))) r)
           (List.filter report_mask df).
Proof.
  unfold combined_report, merge_left.
  induction (List.filter report_mask df) as [|r l IH]; simpl; [reflexivity|].
  rewrite map_app, IH. f_equal. unfold join_row.
  destruct (List.filter (same_year r) pop_df) as [|m ms];
    [simpl; now rewrite source_row_joined|].
  assert (Hrep : forall ps : list PopRow,
            map source_row (map (fun p => joined r (Some (population p))) ps)
            = replicate (length ps) r).
  { induction ps as [|p ps IHps]; simpl; [reflexivity|].
    now rewrite source_row_joined, IHps. }
  rewrite Hrep. reflexivity.
Qed.

End AnalysisExtras.

Module SyncExtras.
Import Frames Analysis Pipeline PipelineFacts HandlerFacts Worlds Configuration.

Ltac close_calls :=
  eexists; split;
  [cbn; rewrite <- ?app_assoc; reflexivity
  |cbn; repeat (constructor; [eauto 6|]); constructor].

(** X1.  Whatever the store, the queue and the origin do, [sync_bls_data]
    fetches the time series, reads and writes the time-series key of its
    bucket and nothing else: the other objects, the queue and the
    environment are as before. *)
Theorem sync_bls_data_footprint (self : DataPipelineHandler) (w : World) :
  environ (snd (sync_bls_data self w)) = environ w /\
  sqs_messages (snd (sync_bls_data self w)) = sqs_messages w /\
  (forall k, k <> (bucket_name self, bls_key) ->
     s3_objects (snd (sync_bls_data self w)) !! k = s3_objects w !! k) /\
  exists l,
    calls (snd (sync_bls_data self w)) = calls w ++ l /\
    Forall (fun c => c = HttpGet bls_origin \/
                     c = S3Get (bucket_name self) bls_key \/
                     exists body, c = S3Put (bucket_name self) bls_key body) l.
Proof.
  unfold sync_bls_data. run. cbn.
  outcomes;
    (split; [reflexivity|]; split; [reflexivity|]; split;
     [intros k Hk; cbn; rewrite ?lookup_insert_ne by congruence; reflexivity
     |close_calls]).
Qed.

(** X2.  When [sync_bls_data] raises, the store is as it was and the last
    line printed names the exception. *)
Theorem sync_bls_data_failure (self : DataPipelineHandler) (w w1 : World) (e : exn) :
  sync_bls_data self w = (inl e, w1) ->
  s3_objects w1 = s3_objects w /\
  stdout w1 = stdout w ++ ["Error syncing BLS data: " +:+ str_exn e].
Proof.
  unfold sync_bls_data. run. cbn.
  outcomes; intros Hrun; try discriminate Hrun;
    injection Hrun as <- <-; split; reflexivity.
Qed.

Lemma sync_bls_data_failure_witness :
  exists w1,
    sync_bls_data the_handler world_readonly = (inl write_denied, w1) /\
    s3_objects w1 = ∅.
Proof.
  eexists. split; [reflexivity|].
  apply (sync_bls_data_failure the_handler world_readonly _ write_denied).
  reflexivity.
Defined.

(** X3.  When [sync_bls_data] returns, the origin has answered and the store
    holds the bytes it answered under the time-series key. *)
Theorem sync_bls_data_success (self : DataPipelineHandler) (w w1 : World) :
  sync_bls_data self w = (inr tt, w1) ->
  exists data,
    origin w bls_origin = inr data /\
    s3_objects w1 !! (bucket_name self, bls_key) = Some data.
Proof.
  unfold sync_bls_data. run. cbn.
  destruct (origin w bls_origin) as [e|data] eqn:Horigin; cbn; [discriminate|].
  intros Hrun. exists data. split; [reflexivity|]. revert Hrun.
  destruct (s3_get_fault w) as [e|] eqn:Hget; cbn.
  - destruct e as [code text| | |]; cbn; try discriminate.
    destruct (String.eqb code "NoSuchKey"); cbn; [|discriminate].
    destruct (s3_put_fault w); cbn; [discriminate|].
    intros [= <-]. apply lookup_insert_eq.
  - destruct (s3_objects w !! (bucket_name self, bls_key)) as [old|] eqn:Hobj; cbn.
    + unfold bytes_eqb. destruct (bool_decide (old = data)) eqn:Heq; cbn.
      * apply bool_decide_eq_true in Heq. subst old. now intros [= <-].
      * destruct (s3_put_fault w); cbn; [discriminate|].
        intros [= <-]. apply lookup_insert_eq.
    + destruct (s3_put_fault w); cbn; [discriminate|].
      intros [= <-]. apply lookup_insert_eq.
Qed.

Lemma sync_bls_data_success_witness :
  exists w1 data,
    sync_bls_data the_handler scenario1 = (inr tt, w1) /\
    origin scenario1 bls_origin = inr data /\
    s3_objects w1 !! ("bucket", bls_key) = Some data.
Proof.
  destruct (sync_bls_data_success the_handler scenario1 _ eq_refl)
    as [data [Ho Hs]].
  eexists. exists data. split; [reflexivity|]. split; [exact Ho | exact Hs].
Defined.

(** X4.  When the origin of the time series does not answer, [sync_bls_data]
    raises the exception of the fetch without a call to the store. *)
Theorem sync_bls_data_offline (self : DataPipelineHandler) (w : World) (e : exn) :
  origin w bls_origin = inl e ->
  sync_bls_data self w =
    (inl e, add_line ("Error syncing BLS data: " +:+ str_exn e)
              (add_call (HttpGet bls_origin) w)).
Proof.
  intros Horigin. unfold sync_bls_data. run. cbn. now rewrite Horigin.
Qed.

Lemma sync_bls_data_offline_witness :
  calls (snd (sync_bls_data the_handler world_offline)) = [HttpGet bls_origin].
Proof.
  rewrite (sync_bls_data_offline the_handler world_offline connection_error eq_refl).
  reflexivity.
Defined.

End SyncExtras.

Module PopulationExtras.
Import Frames Analysis Pipeline PipelineFacts HandlerFacts SyncExtras Worlds Configuration.

(** X5.  Whatever the store, the queue and the origin do,
    [fetch_population_data] never reads the store: it fetches the payload,
    writes the population key of its bucket and sends to its queue, and the
    other objects are as before. *)
Theorem fetch_population_data_footprint `{Externals} (self : DataPipelineHandler)
    (w : World) :
  environ (snd (fetch_population_data self w)) = environ w /\
  (forall k, k <> (bucket_name self, population_key) ->
     s3_objects (snd (fetch_population_data self w)) !! k = s3_objects w !! k) /\
  exists l,
    calls (snd (fetch_population_data self w)) = calls w ++ l /\
    Forall (fun c => c = HttpGet (population_api_url self) \/
                     (exists body, c = S3Put (bucket_name self) population_key body) \/
                     exists body, c = SqsSend (queue_url self) body) l.
Proof.
  unfold fetch_population_data. run. cbn.
  outcomes;
    (split; [reflexivity|]; split;
     [intros k Hk; cbn; rewrite ?lookup_insert_ne by congruence; reflexivity
     |close_calls]).
Qed.

(** X6.  When the population origin does not answer, or answers a payload
    that does not parse, [fetch_population_data] raises that exception
    after the fetch alone: nothing is written and no message is sent. *)
Theorem fetch_population_data_no_payload `{Externals} (self : DataPipelineHandler)
    (w : World) (e : exn) :
  origin w (population_api_url self) = inl e \/
  (exists content, origin w (population_api_url self) = inr content /\
                   json_loads content = inl e) ->
  fetch_population_data self w =
    (inl e, add_line ("Error fetching population data: " +:+ str_exn e)
              (add_call (HttpGet (population_api_url self)) w)).
Proof.
  intros [Hfetch|[content [Hfetch Hparse]]];
    unfold fetch_population_data; run; cbn; rewrite Hfetch; cbn;
    [|rewrite Hparse]; reflexivity.
Qed.

Lemma fetch_population_data_no_payload_witness :
  exists w1,
    fetch_population_data (H := mock_externals) the_handler world_offline
      = (inl connection_error, w1) /\
    calls w1 = [HttpGet "https://population.example/data"] /\
    s3_objects w1 = s3_objects world_offline /\ sqs_messages w1 = [].
Proof.
  eexists. split.
  - apply (fetch_population_data_no_payload (H := mock_externals)
             the_handler world_offline connection_error).
    left. reflexivity.
  - repeat split; reflexivity.
Defined.

(** X7.  When [fetch_population_data] returns, the origin has answered a
    payload that parses, the store holds its serialisation under the
    population key, and the queue has one message more, the notification. *)
Theorem fetch_population_data_success `{Externals} (self : DataPipelineHandler)
    (w w1 : World) :
  fetch_population_data self w = (inr tt, w1) ->
  exists content data,
    origin w (population_api_url self) = inr content /\
    json_loads content = inr data /\
    s3_objects w1 =
      <[(bucket_name self, population_key) := population_payload data]> (s3_objects w) /\
    sqs_messages w1 = sqs_messages w ++ [(queue_url self, population_message w)].
Proof.
  unfold fetch_population_data. run. cbn.
  destruct (origin w (population_api_url self)) as [e|content] eqn:Hfetch; cbn;
    [discriminate|].
  destruct (json_loads content) as [e|data] eqn:Hparse; cbn; [discriminate|].
  destruct (s3_put_fault w); cbn; [discriminate|].
  destruct (sqs_fault w); cbn; [discriminate|].
  intros [= <-]. exists content, data. repeat split; assumption || reflexivity.
Qed.

Lemma fetch_population_data_success_witness :
  exists w1,
    fetch_population_data (H := mock_externals) the_handler scenario1 = (inr tt, w1) /\
    length (sqs_messages w1) = 1%nat.
Proof.
  eexists. split; [reflexivity|].
  destruct (fetch_population_data_success (H := mock_externals)
              the_handler scenario1 _ eq_refl) as [content [data [_ [_ [_ Hq]]]]].
  rewrite Hq. reflexivity.
Defined.



End PopulationExtras.

Module LoaderExtras.
Import Frames Analysis Pipeline FramesFacts AnalysisFacts PipelineFacts HandlerFacts.
Import SyncExtras Worlds Configuration.

(** X9.  [analyze_data] only reads: whatever happens, the store, the queue
    and the environment are as before; it reads the time-series key and,
    unless that failed, the population key; it prints nothing when it
    returns and one line naming the exception when it raises. *)
Theorem analyze_data_read_only `{Externals} `{Sorter} (self : DataPipelineHandler)
    (w : World) :
  environ (snd (analyze_data self w)) = environ w /\
  s3_objects (snd (analyze_data self w)) = s3_objects w /\
  sqs_messages (snd (analyze_data self w)) = sqs_messages w /\
  (calls (snd (analyze_data self w)) = calls w ++ [S3Get (bucket_name self) bls_key] \/
   calls (snd (analyze_data self w)) =
     calls w ++ [S3Get (bucket_name self) bls_key;
                 S3Get (bucket_name self) population_key]) /\
  match fst (analyze_data self w) with
  | inr _ => stdout (snd (analyze_data self w)) = stdout w
  | inl e => stdout (snd (analyze_data self w))
             = stdout w ++ ["Error analyzing data: " +:+ str_exn e]
  end.
Proof.
  unfold analyze_data. run. cbn -[analyze_frames].
  outcomes; cbn -[analyze_frames];
    (split; [reflexivity|]; split; [reflexivity|]; split; [reflexivity|]; split;
     [rewrite <- ?app_assoc; auto | reflexivity]).
Qed.

(** X10.  Without the time-series blob [analyze_data] raises the store's
    "no such key" after one read, and does not read the population key;
    with it stored and parsed but without the population blob, it raises
    the same after the two reads. *)
Theorem analyze_data_missing_blob `{Externals} `{Sorter} (self : DataPipelineHandler)
    (w : World) :
  s3_get_fault w = None ->
  (s3_objects w !! (bucket_name self, bls_key) = None ->
   analyze_data self w =
     (inl no_such_key,
      add_line ("Error analyzing data: " +:+ str_exn no_such_key)
        (add_call (S3Get (bucket_name self) bls_key) w))) /\
  (forall body df,
     s3_objects w !! (bucket_name self, bls_key) = Some body ->
     read_csv body = inr df ->
     s3_objects w !! (bucket_name self, population_key) = None ->
     analyze_data self w =
       (inl no_such_key,
        add_line ("Error analyzing data: " +:+ str_exn no_such_key)
          (add_call (S3Get (bucket_name self) population_key)
             (add_call (S3Get (bucket_name self) bls_key) w)))).
Proof.
  intros Hget. split.
  - intros Hbls. unfold analyze_data. run. cbn -[analyze_frames].
    now rewrite Hget, Hbls.
  - intros body df Hbls Hcsv Hpop. unfold analyze_data. run. cbn -[analyze_frames].
    rewrite Hget, Hbls, Hcsv. cbn -[analyze_frames]. now rewrite Hget, Hpop.
Qed.

Lemma analyze_data_missing_blob_witness :
  fst (analyze_data (H := mock_externals) (H0 := insertion_sort) the_handler scenario1)
    = inl no_such_key /\
  calls (snd (analyze_data (H := mock_externals) (H0 := insertion_sort)
                the_handler scenario2))
    = [S3Get "bucket" bls_key; S3Get "bucket" population_key].
Proof.
  split.
  - destruct (analyze_data_missing_blob (H := mock_externals) (H0 := insertion_sort)
                the_handler scenario1 eq_refl) as [Hnone _].
    now rewrite (Hnone eq_refl).
  - destruct (analyze_data_missing_blob (H := mock_externals) (H0 := insertion_sort)
                the_handler scenario2 eq_refl) as [_ Hpop].
    now rewrite (Hpop payloadX [] eq_refl eq_refl eq_refl).
Defined.

End LoaderExtras.

Module HandlerExtras.
Import Frames Analysis Pipeline FramesFacts AnalysisFacts PipelineFacts HandlerFacts.
Import SyncExtras Worlds Configuration.

(** X11.  The constructor runs before the [try] and in this order: the s3
    client, the sqs client, then the variables BUCKET_NAME, QUEUE_URL,
    POPULATION_API_URL.  For every trigger the entry point raises the
    exception of the first of these that fails (that of boto3 for a client,
    [KeyError] with its name for a missing variable), before any call and
    any output. *)
Theorem lambda_handler_missing_configuration `{Externals} `{Sorter}
    (event context : gmap string pyobj) (w : World) :
  (forall e, client_fault w "s3" = Some e ->
     lambda_handler event context w = (inl e, w)) /\
  (forall e, client_fault w "s3" = None -> client_fault w "sqs" = Some e ->
     lambda_handler event context w = (inl e, w)) /\
  (forall name,
     client_fault w "s3" = None -> client_fault w "sqs" = None ->
     first_missing (environ w) = Some name ->
     lambda_handler event context w = (inl (KeyError name), w)).
Proof.
  split; [|split].
  - intros e Hs3. apply lambda_handler_unconfigured.
    unfold init, boto3_client. run. now rewrite Hs3.
  - intros e Hs3 Hsqs. apply lambda_handler_unconfigured.
    unfold init, boto3_client. run. now rewrite Hs3, Hsqs.
  - intros name Hs3 Hsqs.
    unfold first_missing, configuration_names. cbn [List.find]. intros Hname.
    apply lambda_handler_unconfigured. unfold init, boto3_client. run.
    rewrite Hs3, Hsqs.
    destruct (environ w !! "BUCKET_NAME"); cbn in Hname |- *;
      [|injection Hname as <-; reflexivity].
    destruct (environ w !! "QUEUE_URL"); cbn in Hname |- *;
      [|injection Hname as <-; reflexivity].
    destruct (environ w !! "POPULATION_API_URL"); cbn in Hname |- *;
      [discriminate Hname | injection Hname as <-; reflexivity].
Qed.

Lemma lambda_handler_missing_configuration_witness :
  lambda_handler (H := mock_externals) (H0 := insertion_sort)
    one_record ∅ world_bucket_only
  = (inl (KeyError "QUEUE_URL"), world_bucket_only) /\
  lambda_handler (H := mock_externals) (H0 := insertion_sort)
    one_record ∅ world_no_region
  = (inl no_region, world_no_region).
Proof.
  destruct (lambda_handler_missing_configuration (H := mock_externals)
              (H0 := insertion_sort) one_record ∅ world_bucket_only) as [_ [_ Hvar]].
  destruct (lambda_handler_missing_configuration (H := mock_externals)
              (H0 := insertion_sort) one_record ∅ world_no_region) as [Hs3 _].
  split.
  - apply Hvar; reflexivity.
  - apply Hs3. reflexivity.
Defined.

(** X12.  The entry point looks at nothing of the trigger but the presence of
    the key Records: two triggers that both have it, or both lack it, give
    the same run, whatever the records and the context are. *)
Theorem lambda_handler_ignores_records `{Externals} `{Sorter}
    (event event' context context' : gmap string pyobj) (w : World) :
  (is_Some (event !! "Records") <-> is_Some (event' !! "Records")) ->
  lambda_handler event context w = lambda_handler event' context' w.
Proof.
  intros Hsame. unfold lambda_handler.
  destruct (event !! "Records") as [v|] eqn:E, (event' !! "Records") as [v'|] eqn:E';
    try reflexivity.
  - destruct Hsame as [Hsame _]. destruct Hsame as [x Hx]; [eauto | discriminate Hx].
  - destruct Hsame as [_ Hsame]. destruct Hsame as [x Hx]; [eauto | discriminate Hx].
Qed.

Lemma lambda_handler_ignores_records_witness :
  lambda_handler (H := mock_externals) (H0 := insertion_sort) one_record ∅ scenario1
  = lambda_handler (H := mock_externals) (H0 := insertion_sort) empty_batch one_record
      scenario1.
Proof.
  apply (lambda_handler_ignores_records (H := mock_externals) (H0 := insertion_sort)).
  split; intros _; eexists; reflexivity.
Defined.

Section Configured.
Context `{Externals} `{Sorter}.
Context (event context : gmap string pyobj) (w : World) (b q u : string).
Hypothesis Hclient_s3 : client_fault w "s3" = None.
Hypothesis Hclient_sqs : client_fault w "sqs" = None.
Hypothesis Hb : environ w !! "BUCKET_NAME" = Some b.
Hypothesis Hq : environ w !! "QUEUE_URL" = Some q.
Hypothesis Hu : environ w !! "POPULATION_API_URL" = Some u.

Lemma configured_run :
  lambda_handler event context w =
    try_except
      (match event !! "Records" with
       | Some _ => analysis_branch (mkHandler b q u)
       | None => sync_branch (mkHandler b q u)
       end) error_response w.
Proof.
  apply lambda_handler_configured. now apply init_configured.
Qed.


(** X14.  A scheduled run whose time-series origin does not answer returns 500
    with the text of the exception; the population sync is not attempted:
    the only call is the failed fetch, and two lines are printed. *)
Theorem scheduled_run_offline (e : exn) :
  event !! "Records" = None ->
  origin w bls_origin = inl e ->
  lambda_handler event context w =
    (inr (mkResponse 500 (json_dumps None (PyDict [("error", PyStr (str_exn e))]))),
     add_line ("Error in lambda_handler: " +:+ str_exn e)
       (add_line ("Error syncing BLS data: " +:+ str_exn e)
          (add_call (HttpGet bls_origin) w))).
Proof.
  intros Hrec Hbls. rewrite configured_run, Hrec, guarded_outcome.
  unfold sync_branch. run.
  now rewrite (sync_bls_data_offline (mkHandler b q u) w e Hbls).
Qed.

(** X15.  On a queue trigger, with both blobs stored and parsed and a
    population table that is not empty, the entry point returns 200 with
    the serialised analysis of the two frames, after the two reads and one
    line of output; store and queue are as before. *)
Theorem analysis_run (bls_body pop_body : list byte) (pop_data : pyobj)
    (bls_df : DataFrame) (pop_df : list PopRow) :
  is_Some (event !! "Records") ->
  s3_get_fault w = None ->
  s3_objects w !! (b, bls_key) = Some bls_body ->
  s3_objects w !! (b, population_key) = Some pop_body ->
  read_csv bls_body = inr bls_df ->
  json_loads pop_body = inr pop_data ->
  pd_DataFrame pop_data = inr pop_df ->
  pop_df <> [] ->
  exists res,
    analyze_frames bls_df pop_df = inr res /\
    lambda_handler event context w =
      (inr (mkResponse 200 (json_dumps None (result_to_dict res))),
       add_line ("Analysis results: " +:+ json_dumps (Some 2%nat) (result_to_dict res))
         (add_call (S3Get b population_key) (add_call (S3Get b bls_key) w))).
Proof.
  intros [v Hrec] Hget Hbls Hpop Hcsv Hjson Hframe Hne.
  destruct (analyze_data_loaded (mkHandler b q u) w bls_body pop_body pop_data
              bls_df pop_df Hget Hbls Hpop Hcsv Hjson Hframe Hne) as [res [Hres Hrun]].
  exists res. split; [exact Hres|].
  rewrite configured_run, Hrec, guarded_outcome.
  unfold analysis_branch. run. now rewrite Hrun.
Qed.

End Configured.


Lemma scheduled_run_offline_witness :
  calls (snd (lambda_handler (H := mock_externals) (H0 := insertion_sort)
                scheduled ∅ world_offline))
    = [HttpGet bls_origin].
Proof.
  rewrite (scheduled_run_offline (H := mock_externals) (H0 := insertion_sort)
             scheduled ∅ world_offline "bucket" "queue" "https://population.example/data"
             eq_refl eq_refl eq_refl eq_refl eq_refl connection_error eq_refl eq_refl).
  reflexivity.
Defined.

Lemma analysis_run_witness :
  exists res w',
    lambda_handler (H := mock_externals) (H0 := insertion_sort) one_record ∅ world_loaded
      = (inr (mkResponse 200 (mock_dumps (result_to_dict res))), w') /\
    s3_objects w' = s3_objects world_loaded.
Proof.
  destruct (analysis_run (H := mock_externals) (H0 := insertion_sort)
              one_record ∅ world_loaded "bucket" "queue" "https://population.example/data"
              eq_refl eq_refl eq_refl eq_refl eq_refl payload1 payloadX (PyList []) [] [mkPop 2015 200])
    as [res [_ Hrun]]; try reflexivity; [eexists; reflexivity | discriminate |].
  exists res. eexists. split; [exact Hrun | reflexivity].
Defined.


End HandlerExtras.
